(** * WMM-volunteer: the two Salesforce diagnostic scripts

    A shallow embedding of [test_sf_connection.py] (the connection
    bootstrapper) and [explore_sf_fields.py] (the metadata and sample-data
    explorer), with the properties of their domain normalisation,
    authentication-mode selection, queries and derived values.

    Conventions.
    - A Python [str] is a Rocq [string], read as its UTF-8 bytes.  Every
      pattern the scripts and [urllib.parse] search for is ASCII, so
      searching, replacing and stripping act on the bytes as they act on
      the code points.
    - A statement that can raise returns a [Result]; the scripts' output
      and their [try]/[except] blocks are threaded through the monad [M].
    - The credentials are module-level literals in both scripts; here they
      are a [credentials] argument and the literals are not reproduced. *)

From Stdlib Require Import String Ascii List ZArith Bool Lia.
From Stdlib Require Import Sorting.Sorted DecimalString OrderedTypeEx.
From Stdlib Require PrimFloat SpecFloat FloatOps.
Import ListNotations.

Local Open Scope string_scope.
Local Open Scope list_scope.

(** ** Python exceptions and results *)

Inductive exn_class :=
| ImportError
| KeyError
| TypeError
| ValueError
| OverflowError
| LibraryError. (* any other subclass of Exception raised by the client library *)

Record exn := Exn { exn_kind : exn_class; exn_msg : string }.

Inductive Result (A : Type) :=
| Ok (a : A)
| Raise (e : exn).
Arguments Ok {A} a.
Arguments Raise {A} e.

Definition rbind {A B} (r : Result A) (k : A -> Result B) : Result B :=
  match r with
  | Ok a => k a
  | Raise e => Raise e
  end.

(** ** Python string primitives *)

Module Py.

(** [sub in s] *)
Fixpoint contains (sub s : string) : bool :=
  prefix sub s ||
  match s with
  | "" => false
  | String _ s' => contains sub s'
  end.

(** [c in s] for a single character *)
Fixpoint has_char (c : ascii) (s : string) : bool :=
  match s with
  | "" => false
  | String d s' => Ascii.eqb c d || has_char c s'
  end.

(** [s.replace(old, new)] for a non-empty [old]: occurrences are replaced
    from the left and do not overlap.  [skip] counts the characters of a
    match that are still to be dropped. *)
Fixpoint replace_from (old new : string) (skip : nat) (s : string) : string :=
  match s with
  | "" => ""
  | String c s' =>
      match skip with
      | S k => replace_from old new k s'
      | O =>
          if prefix old s
          then new ++ replace_from old new (String.length old - 1) s'
          else String c (replace_from old new 0 s')
      end
  end.

Definition replace (old new s : string) : string := replace_from old new 0 s.

(** [s.rstrip(chars)] *)
Fixpoint rstrip (chars : string) (s : string) : string :=
  match s with
  | "" => ""
  | String c s' =>
      match rstrip chars s' with
      | "" => if has_char c chars then "" else String c ""
      | r => String c r
      end
  end.

(** [s.lstrip(chars)], with the character set given as a predicate *)
Fixpoint lstrip_by (p : ascii -> bool) (s : string) : string :=
  match s with
  | "" => ""
  | String c s' => if p c then lstrip_by p s' else s
  end.

(** [s.find(c)] for a single character; [None] stands for [-1] *)
Fixpoint find (c : ascii) (s : string) : option nat :=
  match s with
  | "" => None
  | String d s' =>
      if Ascii.eqb c d then Some 0
      else option_map S (find c s')
  end.

(** [s[:n]] and [s[n:]] *)
Fixpoint take (n : nat) (s : string) : string :=
  match n, s with
  | S k, String c s' => String c (take k s')
  | _, _ => ""
  end.

Fixpoint drop (n : nat) (s : string) : string :=
  match n, s with
  | S k, String _ s' => drop k s'
  | _, _ => s
  end.

(** [s.partition(c)]: the text before the first [c], whether [c] was found,
    and the text after it *)
Fixpoint partition (c : ascii) (s : string) : string * bool * string :=
  match s with
  | "" => ("", false, "")
  | String d s' =>
      if Ascii.eqb c d then ("", true, s')
      else let '(b, f, a) := partition c s' in (String d b, f, a)
  end.

(** [s.rpartition(c)[2]]: the text after the last [c], or all of [s] *)
Fixpoint rpartition_tail (c : ascii) (s : string) : string :=
  match s with
  | "" => ""
  | String d s' =>
      if has_char c s' then rpartition_tail c s'
      else if Ascii.eqb c d then s' else s
  end.

Definition startswith (p s : string) : bool := prefix p s.

Definition char_isascii (c : ascii) : bool := (nat_of_ascii c <? 128)%nat.

Fixpoint forall_chars (p : ascii -> bool) (s : string) : bool :=
  match s with
  | "" => true
  | String c s' => p c && forall_chars p s'
  end.

Definition isascii (s : string) : bool := forall_chars char_isascii s.

Definition char_between (lo hi c : ascii) : bool :=
  ((nat_of_ascii lo <=? nat_of_ascii c) && (nat_of_ascii c <=? nat_of_ascii hi))%nat.

Definition is_ascii_alpha (c : ascii) : bool :=
  char_between "a" "z" c || char_between "A" "Z" c.

Definition is_digit (c : ascii) : bool := char_between "0" "9" c.

(** [s.lower()] on ASCII letters *)
Definition char_lower (c : ascii) : ascii :=
  if char_between "A" "Z" c then ascii_of_nat (nat_of_ascii c + 32) else c.

Fixpoint lower (s : string) : string :=
  match s with
  | "" => ""
  | String c s' => String (char_lower c) (lower s')
  end.

End Py.

(** ** [urllib.parse]: the network location of a parsed URL

    [urlparse(url).netloc] is the [netloc] that [urlsplit] computes.  The
    model follows CPython's [urlsplit] statement by statement for that
    component.  Two library steps stay abstract: the validation of a
    bracketed host ([_check_bracketed_host], which calls the [ipaddress]
    module) and Unicode NFKC normalisation (used by [_checknetloc] on
    non-ASCII locations only). *)

Module Urllib.

Class Oracle := {
  (** [_check_bracketed_host(hostname)]: the message of the [ValueError] it
      raises, if any *)
  check_bracketed_host : string -> option string;
  (** [unicodedata.normalize('NFKC', n)] *)
  nfkc : string -> string
}.

Definition value_error (msg : string) : exn := Exn ValueError msg.

(** [_WHATWG_C0_CONTROL_OR_SPACE]: the characters U+0000 to U+0020 *)
Definition is_c0_control_or_space (c : ascii) : bool :=
  (nat_of_ascii c <=? 32)%nat.

(** [_UNSAFE_URL_BYTES_TO_REMOVE = ['\t', '\r', '\n']] *)
Definition TAB : string := String (ascii_of_nat 9) "".
Definition CR : string := String (ascii_of_nat 13) "".
Definition LF : string := String (ascii_of_nat 10) "".

Definition remove_unsafe_bytes (url : string) : string :=
  Py.replace LF "" (Py.replace CR "" (Py.replace TAB "" url)).

(** [c in scheme_chars]: letters, digits, [+], [-] and [.] *)
Definition is_scheme_char (c : ascii) : bool :=
  Py.is_ascii_alpha c || Py.is_digit c
  || Ascii.eqb c "+" || Ascii.eqb c "-" || Ascii.eqb c ".".

(** The scheme split of [urlsplit]: the scheme as written (it is
    lower-cased by [scheme] below) and the rest of the URL. *)
Definition split_scheme (url : string) : string * string :=
  match Py.find ":" url with
  | Some (S i') =>
      let i := S i' in
      match url with
      | String c0 _ =>
          if Py.char_isascii c0 && Py.is_ascii_alpha c0
             && Py.forall_chars is_scheme_char (Py.take i url)
          then (Py.take i url, Py.drop (S i) url)
          else ("", url)
      | "" => ("", url)
      end
  | _ => ("", url)
  end.

Definition is_netloc_delim (c : ascii) : bool :=
  Ascii.eqb c "/" || Ascii.eqb c "?" || Ascii.eqb c "#".

(** [url[:delim]] where [delim] is the earliest of the delimiters [/?#] *)
Fixpoint take_until_delim (s : string) : string :=
  match s with
  | "" => ""
  | String c s' => if is_netloc_delim c then "" else String c (take_until_delim s')
  end.

(** [_splitnetloc(url, 2)[0]] *)
Definition splitnetloc (url : string) : string :=
  take_until_delim (Py.drop 2 url).

Section Checks.
Context `{Oracle}.

(** [_check_bracketed_netloc(netloc)] *)
Definition check_bracketed_netloc (netloc : string) : Result unit :=
  let hostname_and_port := Py.rpartition_tail "@" netloc in
  let '(before_bracket, have_open_br, bracketed) :=
    Py.partition "[" hostname_and_port in
  let checked (hostname : string) : Result unit :=
    match check_bracketed_host hostname with
    | Some msg => Raise (value_error msg)
    | None => Ok tt
    end in
  if have_open_br then
    if negb (before_bracket =? "") then Raise (value_error "Invalid IPv6 URL")
    else
      let '(hostname, _, port) := Py.partition "]" bracketed in
      if negb (port =? "") && negb (Py.startswith ":" port)
      then Raise (value_error "Invalid IPv6 URL")
      else checked hostname
  else
    let '(hostname, _, _) := Py.partition ":" hostname_and_port in
    checked hostname.

(** [_checknetloc(netloc)] *)
Definition checknetloc (netloc : string) : Result unit :=
  if (netloc =? "") || Py.isascii netloc then Ok tt
  else
    let n := Py.replace "?" "" (Py.replace "#" "" (Py.replace ":" ""
               (Py.replace "@" "" netloc))) in
    let netloc2 := nfkc n in
    if n =? netloc2 then Ok tt
    else if Py.contains "/" netloc2 || Py.contains "?" netloc2
            || Py.contains "#" netloc2 || Py.contains "@" netloc2
            || Py.contains ":" netloc2
    then Raise (value_error ("netloc '" ++ netloc ++ "' contains invalid "
                             ++ "characters under NFKC normalization"))
    else Ok tt.

(** [urlsplit(url).netloc], which is [urlparse(url).netloc] *)
Definition netloc (url : string) : Result string :=
  let url := Py.lstrip_by is_c0_control_or_space url in
  let url := remove_unsafe_bytes url in
  let url := snd (split_scheme url) in
  rbind
    (if prefix "//" url then
       let netloc := splitnetloc url in
       let lb := Py.has_char "[" netloc in
       let rb := Py.has_char "]" netloc in
       if (lb && negb rb) || (rb && negb lb)
       then Raise (value_error "Invalid IPv6 URL")
       else if lb && rb
       then rbind (check_bracketed_netloc netloc) (fun _ => Ok netloc)
       else Ok netloc
     else Ok "")
    (fun netloc => rbind (checknetloc netloc) (fun _ => Ok netloc)).

(** [urlsplit(url).scheme] for the default [scheme=''] *)
Definition scheme (url : string) : string :=
  let url := Py.lstrip_by is_c0_control_or_space url in
  let url := remove_unsafe_bytes url in
  Py.lower (fst (split_scheme url)).
End Checks.

(** A library whose two abstract steps are never reached by plain ASCII
    host names: it refuses every bracketed host and leaves text unchanged
    under normalisation.  The closed examples below are run against it. *)
Definition plain_oracle : Oracle :=
  {| check_bracketed_host := fun _ => Some "not an IPv6 address";
     nfkc := fun s => s |}.

End Urllib.

(** ** Python values, records and program output

    A record returned by the client library is an ordered dictionary from
    field names to scalar values.  Numbers are Python integers here; the
    floats that the JSON decoder can deliver enter with [PyNum] below,
    for the one computation that does arithmetic.  The [attributes] entry
    that the library adds to each record is read by neither script and is
    left out. *)

Inductive value :=
| VNone
| VBool (b : bool)
| VInt (z : Z)
| VStr (s : string).

Definition record := list (string * value).

(** A JSON document, as [json.dumps] receives it *)
#[local] Set Warnings "-register-all".
Inductive json :=
| JNull
| JBool (b : bool)
| JInt (z : Z)
| JStr (s : string)
| JObj (members : list (string * json)).
#[local] Set Warnings "register-all".

Definition json_of_value (v : value) : json :=
  match v with
  | VNone => JNull
  | VBool b => JBool b
  | VInt z => JInt z
  | VStr s => JStr s
  end.

Definition json_of_record (r : record) : json :=
  JObj (map (fun kv => (fst kv, json_of_value (snd kv))) r).

Module Dict.

(** [d.get(key)]: [None] when the key is missing *)
Fixpoint lookup {A} (key : string) (d : list (string * A)) : option A :=
  match d with
  | [] => None
  | (k, v) :: d' => if k =? key then Some v else lookup key d'
  end.

(** [d.get(key, default)] *)
Definition get (d : record) (key : string) (default : value) : value :=
  match lookup key d with
  | Some v => v
  | None => default
  end.

(** [d[key]], which raises [KeyError(key)] when the key is missing *)
Definition getitem (d : record) (key : string) : Result value :=
  match lookup key d with
  | Some v => Ok v
  | None => Raise (Exn KeyError ("'" ++ key ++ "'"))
  end.

End Dict.

Definition string_of_nat (n : nat) : string :=
  DecimalString.NilZero.string_of_uint (Nat.to_uint n).

Definition string_of_Z (z : Z) : string :=
  DecimalString.NilZero.string_of_int (Z.to_int z).

(** [str(v)], the text an f-string interpolates *)
Definition py_str (v : value) : string :=
  match v with
  | VNone => "None"
  | VBool true => "True"
  | VBool false => "False"
  | VInt z => string_of_Z z
  | VStr s => s
  end.

(** [type(v).__name__] *)
Definition type_name (v : value) : string :=
  match v with
  | VNone => "NoneType"
  | VBool _ => "bool"
  | VInt _ => "int"
  | VStr _ => "str"
  end.

(** The truth value of [v] in a condition *)
Definition truthy (v : value) : bool :=
  match v with
  | VNone => false
  | VBool b => b
  | VInt z => negb (z =? 0)%Z
  | VStr s => negb (s =? "")
  end.

(** The integer a value denotes in arithmetic ([bool] is a subclass of
    [int]) *)
Definition as_int (v : value) : option Z :=
  match v with
  | VInt z => Some z
  | VBool b => Some (if b then 1 else 0)%Z
  | _ => None
  end.

(** [a - b] *)
Definition py_sub (a b : value) : Result value :=
  match as_int a, as_int b with
  | Some x, Some y => Ok (VInt (x - y))
  | _, _ =>
      Raise (Exn TypeError ("unsupported operand type(s) for -: '"
                            ++ type_name a ++ "' and '" ++ type_name b ++ "'"))
  end.

(** [a == b] on scalars of the kinds the scripts compare *)
Definition value_eqb (a b : value) : bool :=
  match a, b with
  | VNone, VNone => true
  | VStr s, VStr t => s =? t
  | _, _ =>
      match as_int a, as_int b with
      | Some x, Some y => (x =? y)%Z
      | _, _ => false
      end
  end.

(** What a script writes to standard output: one item per [print] call *)
Inductive out :=
| Print (text : string)
| PrintJson (doc : json). (* print(json.dumps(doc, indent=2)) *)

Inductive exit_status :=
| ExitNormally
| Traceback (e : exn). (* an exception no handler caught *)

Record outcome := { stdout : list out; status : exit_status }.

(** The monad of a running script: output written so far, and a value or
    a raised exception. *)
Definition M (A : Type) : Type := list out -> list out * Result A.

Definition ret {A} (a : A) : M A := fun o => (o, Ok a).

Definition bind {A B} (m : M A) (k : A -> M B) : M B :=
  fun o =>
    match m o with
    | (o', Ok a) => k a o'
    | (o', Raise e) => (o', Raise e)
    end.

Definition lift {A} (r : Result A) : M A := fun o => (o, r).

Definition emit (x : out) : M unit := fun o => (o ++ [x], Ok tt).

Definition print (text : string) : M unit := emit (Print text).

Definition print_json (doc : json) : M unit := emit (PrintJson doc).

(** [try: body except ...: handler].  [handler e] is [None] when no
    [except] clause matches [e]. *)
Definition try_except {A} (body : M A) (handler : exn -> option (M A)) : M A :=
  fun o =>
    match body o with
    | (o', Raise e) =>
        match handler e with
        | Some h => h o'
        | None => (o', Raise e)
        end
    | r => r
    end.

(** [for x in xs: body x] *)
Fixpoint for_each {A} (xs : list A) (body : A -> M unit) : M unit :=
  match xs with
  | [] => ret tt
  | x :: xs' => bind (body x) (fun _ => for_each xs' body)
  end.

Definition run_script (m : M unit) : outcome :=
  let '(o, r) := m [] in
  {| stdout := o;
     status := match r with Ok _ => ExitNormally | Raise e => Traceback e end |}.

Declare Scope script_scope.
Delimit Scope script_scope with script.
Notation "x <- m ;; k" := (bind m (fun x => k))
  (at level 61, m at next level, right associativity) : script_scope.
Notation "m ;; k" := (bind m (fun _ => k))
  (at level 61, right associativity) : script_scope.

(** ** The query language the scripts send to the remote service

    The scripts pass SOQL text to [sf.query].  The embedding passes the
    query in structured form; [render] gives back the words of the text
    (see [shifts_query_text_words] and its siblings, which compare the
    words of the scripts' own text with the rendering).  [eval] is the
    meaning the remote service gives to such a query: filter by the
    conditions, order, cut at the limit, project. *)

Module Soql.

Inductive cond :=
| Eq (field : string) (lit : string)   (* field = 'lit', lit without quotes *)
| NotNull (field : string).            (* field != null *)

Inductive direction := Asc | Desc.

Record query := {
  select : list string;
  from : string;
  where_ : list cond;
  order_by : option (string * direction);
  limit : option nat
}.

(** The rows of each object type held by the organisation *)
Definition org := string -> list record.

Definition field (f : string) (r : record) : value := Dict.get r f VNone.

Definition is_null (v : value) : bool :=
  match v with VNone => true | _ => false end.

Definition holds (r : record) (c : cond) : bool :=
  match c with
  | Eq f lit => value_eqb (field f r) (VStr lit)
  | NotNull f => negb (is_null (field f r))
  end.

Definition rank (v : value) : nat :=
  match v with
  | VNone => 0
  | VBool _ | VInt _ => 1
  | VStr _ => 2
  end.

(** The order of column values: numbers by value, text (and so timestamps
    in the one ISO format the service uses) lexicographically. *)
Definition value_leb (a b : value) : bool :=
  match a, b with
  | VStr s, VStr t => String.leb s t
  | _, _ =>
      match as_int a, as_int b with
      | Some x, Some y => (x <=? y)%Z
      | _, _ => (rank a <=? rank b)%nat
      end
  end.

(** [comes_first d a b]: a row with key [a] may precede a row with key [b].
    Nulls come first in either direction, the service's default. *)
Definition comes_first (d : direction) (a b : value) : bool :=
  is_null a ||
  (negb (is_null b) &&
   match d with
   | Asc => value_leb a b
   | Desc => value_leb b a
   end).

Fixpoint insert_row (f : string) (d : direction) (r : record)
    (rows : list record) : list record :=
  match rows with
  | [] => [r]
  | x :: rows' =>
      if comes_first d (field f r) (field f x) then r :: rows
      else x :: insert_row f d r rows'
  end.

Definition sort_rows (f : string) (d : direction) (rows : list record)
  : list record :=
  fold_right (insert_row f d) [] rows.

Definition project (fields : list string) (r : record) : record :=
  map (fun f => (f, field f r)) fields.

(** The rows a query selects, before projection *)
Definition eval_rows (db : org) (q : query) : list record :=
  let rows := filter (fun r => forallb (holds r) (where_ q)) (db (from q)) in
  let rows := match order_by q with
              | Some (f, d) => sort_rows f d rows
              | None => rows
              end in
  match limit q with
  | Some n => firstn n rows
  | None => rows
  end.

Definition eval (db : org) (q : query) : list record :=
  map (project (select q)) (eval_rows db q).

(** The words of the query text *)
Fixpoint render_select (fields : list string) : list string :=
  match fields with
  | [] => []
  | [f] => [f]
  | f :: fields' => (f ++ ",")%string :: render_select fields'
  end.

Definition render_cond (c : cond) : list string :=
  match c with
  | Eq f lit => [f; "="; ("'" ++ lit ++ "'")%string]
  | NotNull f => [f; "!="; "null"]
  end.

Fixpoint render_where (kw : string) (cs : list cond) : list string :=
  match cs with
  | [] => []
  | c :: cs' => kw :: render_cond c ++ render_where "AND" cs'
  end.

Definition render (q : query) : list string :=
  "SELECT" :: render_select (select q)
  ++ ["FROM"; from q]
  ++ render_where "WHERE" (where_ q)
  ++ match order_by q with
     | Some (f, Asc) => ["ORDER"; "BY"; f; "ASC"]
     | Some (f, Desc) => ["ORDER"; "BY"; f; "DESC"]
     | None => []
     end
  ++ match limit q with
     | Some n => ["LIMIT"; string_of_nat n]
     | None => []
     end.

(** White space in the query text *)
Definition is_space (c : ascii) : bool :=
  Ascii.eqb c " " || ((9 <=? nat_of_ascii c) && (nat_of_ascii c <=? 13))%nat.

(** [words_from cur s]: the words of [s], the first one continuing [cur] *)
Fixpoint words_from (cur : string) (s : string) : list string :=
  match s with
  | "" => if cur =? "" then [] else [cur]
  | String c s' =>
      if is_space c
      then (if cur =? "" then [] else [cur]) ++ words_from "" s'
      else words_from (cur ++ String c "")%string s'
  end.

Definition words (s : string) : list string := words_from "" s.

End Soql.

(** ** The client library, as the scripts see it *)

Inductive auth :=
| InstanceUrl (url : string)      (* Salesforce(..., instance_url=url) *)
| NamedDomain (domain : string).  (* Salesforce(..., domain=domain) *)

Record credentials := {
  username : string;
  password : string;
  security_token : string
}.

Record session := {
  sf_instance : string;
  (** [sf.query(text)['records']] *)
  sf_query : Soql.query -> Result (list record);
  (** [sf.<object>.describe()['fields']] *)
  sf_describe : string -> Result (list record)
}.

Record world := {
  (** [from simple_salesforce import Salesforce] *)
  import_simple_salesforce : Result unit;
  (** the [Salesforce(...)] constructor *)
  Salesforce : credentials -> auth -> Result session
}.

(** ** [test_sf_connection.py]: the connection bootstrapper

    The search-path preamble of the script only decides whether the import
    of the client library succeeds; it is part of
    [import_simple_salesforce]. *)

Module Bootstrapper.

(** The module-level [domain] literal *)
Definition domain : string := "https://wmm.lightning.force.com/".

(** The f-string of the verification query: the text before
    [{username}], the text after it, and the whole *)
Definition user_query_head : string :=
  "SELECT Id, Name, Email FROM User WHERE Username = '".

Definition user_query_tail : string := "' LIMIT 1".

Definition user_query_text (username : string) : string :=
  user_query_head ++ username ++ user_query_tail.

Definition user_query (username : string) : Soql.query :=
  {| Soql.select := ["Id"; "Name"; "Email"];
     Soql.from := "User";
     Soql.where_ := [Soql.Eq "Username" username];
     Soql.order_by := None;
     Soql.limit := Some 1 |}.

(** The authentication branch: [instance_url=f'https://{domain}'] for a
    host that contains [lightning.force.com], [domain=domain] otherwise *)
Definition select_auth (domain : string) : auth :=
  if Py.contains "lightning.force.com" domain
  then InstanceUrl ("https://" ++ domain)
  else NamedDomain domain.

(** The result object of a successful run *)
Definition success_result (user_info : list record) (sf : session) : json :=
  JObj [ ("success", JBool true);
         ("message", JStr "Successfully connected to Salesforce");
         ("userInfo", match user_info with
                      | r :: _ => json_of_record r
                      | [] => JNull
                      end);
         ("organizationId", JStr (sf_instance sf)) ].

Definition failure_result (prefix : string) (e : exn) : json :=
  JObj [ ("success", JBool false);
         ("message", JStr (prefix ++ exn_msg e)) ].

(** [except ImportError as e: ... except Exception as e: ...] *)
Definition handlers (e : exn) : option (M unit) :=
  match exn_kind e with
  | ImportError =>
      Some (print_json (failure_result "simple-salesforce not installed: " e))
  | _ => Some (print_json (failure_result "Connection failed: " e))
  end.

Section Script.
Context `{Urllib.Oracle}.

(** "Clean up domain URL if needed" *)
Definition normalize_domain (domain : string) : Result string :=
  rbind (if Py.contains "http" domain then Urllib.netloc domain
         else Ok domain)
    (fun domain =>
       Ok (Py.rstrip "/"
             (Py.replace "http://" "" (Py.replace "https://" "" domain)))).

Local Open Scope script_scope.

(** The body of the [try] block *)
Definition connect (creds : credentials) (domain : string) (w : world)
  : M unit :=
  lift (import_simple_salesforce w) ;;
  domain <- lift (normalize_domain domain) ;;
  print ("Using domain: " ++ domain) ;;
  sf <- lift (Salesforce w creds (select_auth domain)) ;;
  user_info <- lift (sf_query sf (user_query (username creds))) ;;
  print_json (success_result user_info sf).

Definition run (creds : credentials) (domain : string) (w : world)
  : outcome :=
  run_script (try_except (connect creds domain w) handlers).

(** The argument [connect] gives to the [Salesforce] constructor for a
    domain string *)
Definition auth_for (domain : string) : Result auth :=
  rbind (normalize_domain domain) (fun host => Ok (select_auth host)).

Definition main (creds : credentials) (w : world) : outcome :=
  run creds domain w.
End Script.

End Bootstrapper.

(** ** [explore_sf_fields.py]: the metadata and sample-data explorer *)

Module Explorer.

Definition domain : string := "https://wmm.lightning.force.com/".

Definition job_field_names : list string :=
  ["Id"; "Name"; "GW_Volunteers__Description__c";
   "GW_Volunteers__Location__c"; "GW_Volunteers__Campaign__c";
   "GW_Volunteers__Skills_Needed__c"; "GW_Volunteers__Display_on_Website__c";
   "GW_Volunteers__Program__c"; "GW_Volunteers__Status__c"].

Definition shift_field_names : list string :=
  ["Id"; "Name"; "GW_Volunteers__Start_Date_Time__c";
   "GW_Volunteers__Duration__c"; "GW_Volunteers__Total_Volunteers__c";
   "GW_Volunteers__Number_of_Volunteers_Still_Needed__c";
   "GW_Volunteers__Description__c"; "GW_Volunteers__System_Note__c";
   "GW_Volunteers__Volunteer_Job__c"; "GW_Volunteers__Status__c"].

Definition jobs_query_text : string :=
  "
        SELECT Id, Name, GW_Volunteers__Description__c,
               GW_Volunteers__Location__c, GW_Volunteers__Campaign__c,
               GW_Volunteers__Skills_Needed__c, GW_Volunteers__Display_on_Website__c
        FROM GW_Volunteers__Volunteer_Job__c 
        LIMIT 5
    ".

Definition jobs_query : Soql.query :=
  {| Soql.select :=
       ["Id"; "Name"; "GW_Volunteers__Description__c";
        "GW_Volunteers__Location__c"; "GW_Volunteers__Campaign__c";
        "GW_Volunteers__Skills_Needed__c";
        "GW_Volunteers__Display_on_Website__c"];
     Soql.from := "GW_Volunteers__Volunteer_Job__c";
     Soql.where_ := [];
     Soql.order_by := None;
     Soql.limit := Some 5 |}.

(** The f-string of the shift query: the text before [{job_id}], the text
    after it, and the whole *)
Definition shifts_query_head : string :=
  "
            SELECT Id, Name, GW_Volunteers__Start_Date_Time__c,
                   GW_Volunteers__Duration__c, GW_Volunteers__Total_Volunteers__c,
                   GW_Volunteers__Number_of_Volunteers_Still_Needed__c,
                   GW_Volunteers__Description__c
            FROM GW_Volunteers__Volunteer_Shift__c
            WHERE GW_Volunteers__Volunteer_Job__c = '".

Definition shifts_query_tail : string :=
  "'
            AND GW_Volunteers__Start_Date_Time__c != null
            ORDER BY GW_Volunteers__Start_Date_Time__c DESC
            LIMIT 3
        ".

Definition shifts_query_text (job_id : string) : string :=
  shifts_query_head ++ job_id ++ shifts_query_tail.

Definition shifts_query (job_id : string) : Soql.query :=
  {| Soql.select :=
       ["Id"; "Name"; "GW_Volunteers__Start_Date_Time__c";
        "GW_Volunteers__Duration__c"; "GW_Volunteers__Total_Volunteers__c";
        "GW_Volunteers__Number_of_Volunteers_Still_Needed__c";
        "GW_Volunteers__Description__c"];
     Soql.from := "GW_Volunteers__Volunteer_Shift__c";
     Soql.where_ :=
       [Soql.Eq "GW_Volunteers__Volunteer_Job__c" job_id;
        Soql.NotNull "GW_Volunteers__Start_Date_Time__c"];
     Soql.order_by := Some ("GW_Volunteers__Start_Date_Time__c", Soql.Desc);
     Soql.limit := Some 3 |}.

(** Field names the properties below refer to *)
Definition JOB_REF : string := "GW_Volunteers__Volunteer_Job__c".
Definition START : string := "GW_Volunteers__Start_Date_Time__c".
Definition TOTAL : string := "GW_Volunteers__Total_Volunteers__c".
Definition STILL_NEEDED : string :=
  "GW_Volunteers__Number_of_Volunteers_Still_Needed__c".

(** The derived value of a shift:
    [filled = total_spots - still_needed if total_spots else 0] *)
Definition total_spots (shift : record) : value :=
  Dict.get shift "GW_Volunteers__Total_Volunteers__c" (VInt 1).

Definition still_needed (shift : record) : value :=
  Dict.get shift "GW_Volunteers__Number_of_Volunteers_Still_Needed__c"
    (VInt 0).

Definition filled (shift : record) : Result value :=
  if truthy (total_spots shift)
  then py_sub (total_spots shift) (still_needed shift)
  else Ok (VInt 0).

Local Open Scope script_scope.

(** The body of the two loops over [describe()['fields']] *)
Definition print_field (names : list string) (field : record) : M unit :=
  name <- lift (Dict.getitem field "name") ;;
  if existsb (fun n => value_eqb name (VStr n)) names
  then
    label <- lift (Dict.getitem field "label") ;;
    type <- lift (Dict.getitem field "type") ;;
    print (py_str name ++ ": " ++ py_str label ++ " (" ++ py_str type ++ ")")
  else ret tt.

Definition print_shift (shift : record) : M unit :=
  let start_time := Dict.get shift "GW_Volunteers__Start_Date_Time__c" VNone in
  let duration := Dict.get shift "GW_Volunteers__Duration__c" (VInt 1) in
  filled <- lift (filled shift) ;;
  print ("    - " ++ py_str start_time ++ " (" ++ py_str duration ++ "h) - "
         ++ py_str filled ++ "/" ++ py_str (total_spots shift) ++ " spots").

Definition NL : string := String (ascii_of_nat 10) "".

Definition print_job (sf : session) (job : record) : M unit :=
  name <- lift (Dict.getitem job "Name") ;;
  print (NL ++ "Job: " ++ py_str name) ;;
  id <- lift (Dict.getitem job "Id") ;;
  print ("  ID: " ++ py_str id) ;;
  print ("  Description: "
         ++ py_str (Dict.get job "GW_Volunteers__Description__c" (VStr "N/A"))) ;;
  print ("  Location: "
         ++ py_str (Dict.get job "GW_Volunteers__Location__c" (VStr "N/A"))) ;;
  print ("  Campaign: "
         ++ py_str (Dict.get job "GW_Volunteers__Campaign__c" (VStr "N/A"))) ;;
  print ("  Skills Needed: "
         ++ py_str (Dict.get job "GW_Volunteers__Skills_Needed__c" (VStr "N/A"))) ;;
  print ("  Display on Website: "
         ++ py_str (Dict.get job "GW_Volunteers__Display_on_Website__c"
                      (VStr "N/A"))) ;;
  job_id <- lift (Dict.getitem job "Id") ;;
  shifts <- lift (sf_query sf (shifts_query (py_str job_id))) ;;
  print ("  Recent Shifts: " ++ string_of_nat (List.length shifts)) ;;
  for_each shifts print_shift.

(** The argument [explore] gives to the [Salesforce] constructor for a
    domain string: [instance_url=domain] *)
Definition auth_for (domain : string) : auth := InstanceUrl domain.

(** The body of the [try] block *)
Definition explore (creds : credentials) (domain : string) (w : world)
  : M unit :=
  sf <- lift (Salesforce w creds (auth_for domain)) ;;
  print "✅ Connected to Salesforce!" ;;
  print (NL ++ "=== VOLUNTEER JOB FIELDS ===") ;;
  job_desc <- lift (sf_describe sf "GW_Volunteers__Volunteer_Job__c") ;;
  for_each job_desc (print_field job_field_names) ;;
  print (NL ++ "=== VOLUNTEER SHIFT FIELDS ===") ;;
  shift_desc <- lift (sf_describe sf "GW_Volunteers__Volunteer_Shift__c") ;;
  for_each shift_desc (print_field shift_field_names) ;;
  print (NL ++ "=== SAMPLE VOLUNTEER JOBS ===") ;;
  jobs <- lift (sf_query sf jobs_query) ;;
  print ("Found " ++ string_of_nat (List.length jobs) ++ " total jobs") ;;
  for_each jobs (print_job sf).

(** [except Exception as e: print(f"... Error: {e}")] *)
Definition handlers (e : exn) : option (M unit) :=
  Some (print ("❌ Error: " ++ exn_msg e)).

(** The script: the import stands before the [try] block *)
Definition run (creds : credentials) (domain : string) (w : world)
  : outcome :=
  run_script (lift (import_simple_salesforce w) ;;
              try_except (explore creds domain w) handlers).

Definition main (creds : credentials) (w : world) : outcome :=
  run creds domain w.

End Explorer.

(** ** The derived value over decoded JSON numbers

    The JSON decoder turns a number written with a fraction or an exponent
    (the service writes [10.0]) into a Python float, and any other number
    into an integer.  [PyNum.pyvalue] adds the floats to the scalar values;
    [PyNum.filled] is the computation of [filled] over such records.  On
    records without floats it is [Explorer.filled] (see
    [filled_of_record]). *)

Module PyNum.

Inductive pyvalue :=
| PNone
| PBool (b : bool)
| PInt (z : Z)
| PFloat (f : PrimFloat.float)
| PStr (s : string).

Definition pyrecord := list (string * pyvalue).

Definition of_value (v : value) : pyvalue :=
  match v with
  | VNone => PNone
  | VBool b => PBool b
  | VInt z => PInt z
  | VStr s => PStr s
  end.

Definition of_record (r : record) : pyrecord :=
  map (fun kv => (fst kv, of_value (snd kv))) r.

Definition of_result (r : Result value) : Result pyvalue :=
  match r with
  | Ok v => Ok (of_value v)
  | Raise e => Raise e
  end.

(** [d.get(key, default)] *)
Definition get (d : pyrecord) (key : string) (default : pyvalue) : pyvalue :=
  match Dict.lookup key d with
  | Some v => v
  | None => default
  end.

Definition type_name (v : pyvalue) : string :=
  match v with
  | PNone => "NoneType"
  | PBool _ => "bool"
  | PInt _ => "int"
  | PFloat _ => "float"
  | PStr _ => "str"
  end.

(** The truth value of [v] in a condition; a float is false when it
    equals zero (of either sign) *)
Definition truthy (v : pyvalue) : bool :=
  match v with
  | PNone => false
  | PBool b => b
  | PInt z => negb (z =? 0)%Z
  | PFloat f => negb (PrimFloat.eqb f PrimFloat.zero)
  | PStr s => negb (s =? "")
  end.

Inductive number :=
| NInt (z : Z)
| NFloat (f : PrimFloat.float).

Definition as_number (v : pyvalue) : option number :=
  match v with
  | PInt z => Some (NInt z)
  | PBool b => Some (NInt (if b then 1 else 0)%Z)
  | PFloat f => Some (NFloat f)
  | _ => None
  end.

(** [float(z)]: the nearest float, ties to even; too large an integer
    raises [OverflowError] *)
Definition float_of_Z (z : Z) : Result PrimFloat.float :=
  match SpecFloat.binary_normalize FloatOps.prec FloatOps.emax z 0 false with
  | SpecFloat.S754_infinity _ =>
      Raise (Exn OverflowError "int too large to convert to float")
  | sf => Ok (FloatOps.SF2Prim sf)
  end.

Definition to_float (n : number) : Result PrimFloat.float :=
  match n with
  | NInt z => float_of_Z z
  | NFloat f => Ok f
  end.

(** [a - b]: integer subtraction on two integers, float subtraction as
    soon as one operand is a float *)
Definition py_sub (a b : pyvalue) : Result pyvalue :=
  match as_number a, as_number b with
  | Some (NInt x), Some (NInt y) => Ok (PInt (x - y))
  | Some x, Some y =>
      rbind (to_float x) (fun fx =>
      rbind (to_float y) (fun fy => Ok (PFloat (PrimFloat.sub fx fy))))
  | _, _ =>
      Raise (Exn TypeError ("unsupported operand type(s) for -: '"
                            ++ type_name a ++ "' and '" ++ type_name b ++ "'"))
  end.

Definition total_spots (shift : pyrecord) : pyvalue :=
  get shift "GW_Volunteers__Total_Volunteers__c" (PInt 1).

Definition still_needed (shift : pyrecord) : pyvalue :=
  get shift "GW_Volunteers__Number_of_Volunteers_Still_Needed__c" (PInt 0).

(** [filled = total_spots - still_needed if total_spots else 0] *)
Definition filled (shift : pyrecord) : Result pyvalue :=
  if truthy (total_spots shift)
  then py_sub (total_spots shift) (still_needed shift)
  else Ok (PInt 0).

End PyNum.

(** ** Reading a script's output *)

(** The JSON documents among the items written to standard output *)
Fixpoint json_docs (o : list out) : list json :=
  match o with
  | [] => []
  | PrintJson doc :: o' => doc :: json_docs o'
  | Print _ :: o' => json_docs o'
  end.

(** The field names of a JSON object *)
Definition json_keys (doc : json) : list string :=
  match doc with
  | JObj members => map fst members
  | _ => []
  end.

(** [doc[key]], when [doc] is an object with that field *)
Definition json_field (key : string) (doc : json) : option json :=
  match doc with
  | JObj members => Dict.lookup key members
  | _ => None
  end.

(** ** Sample surroundings, for closed examples *)

Module Sample.

Definition creds : credentials :=
  {| username := "volunteer.admin@example.org";
     password := "not-a-secret";
     security_token := "not-a-token" |}.

(** A session whose queries are answered from the rows [db] and whose
    [describe] calls from the field lists [meta] *)
Definition session_of (db : Soql.org) (meta : string -> list record)
    (instance : string) : session :=
  {| sf_instance := instance;
     sf_query := fun q => Ok (Soql.eval db q);
     sf_describe := fun object => Ok (meta object) |}.

(** The client library is missing *)
Definition no_library : world :=
  {| import_simple_salesforce :=
       Raise (Exn ImportError "No module named 'simple_salesforce'");
     Salesforce := fun _ _ =>
       Raise (Exn LibraryError "the library is not loaded") |}.

(** The library is there and the service refuses the login *)
Definition login_refused : world :=
  {| import_simple_salesforce := Ok tt;
     Salesforce := fun _ _ =>
       Raise (Exn LibraryError "INVALID_LOGIN: Invalid username or password") |}.

Definition job1 : record :=
  [ ("Id", VStr "a0J5e000001AbCdEAK");
    ("Name", VStr "Food Pantry");
    ("GW_Volunteers__Description__c", VNone);
    ("GW_Volunteers__Location__c", VStr "Main Hall");
    ("GW_Volunteers__Campaign__c", VStr "7015e000000XyZwAAK");
    ("GW_Volunteers__Skills_Needed__c", VNone);
    ("GW_Volunteers__Display_on_Website__c", VBool true);
    ("GW_Volunteers__Status__c", VStr "Open") ].

Definition shift (id start : value) (job : string) (total needed : value)
  : record :=
  [ ("Id", id);
    ("Name", VStr "Shift");
    ("GW_Volunteers__Start_Date_Time__c", start);
    ("GW_Volunteers__Duration__c", VInt 2);
    ("GW_Volunteers__Total_Volunteers__c", total);
    ("GW_Volunteers__Number_of_Volunteers_Still_Needed__c", needed);
    ("GW_Volunteers__Description__c", VNone);
    ("GW_Volunteers__Volunteer_Job__c", VStr job) ].

Definition shifts : list record :=
  [ shift (VStr "s1") (VStr "2024-03-01T09:00:00.000+0000")
      "a0J5e000001AbCdEAK" (VInt 10) (VInt 3);
    shift (VStr "s2") VNone "a0J5e000001AbCdEAK" (VInt 5) (VInt 5);
    shift (VStr "s3") (VStr "2024-05-01T09:00:00.000+0000")
      "a0J5e000001AbCdEAK" VNone VNone;
    shift (VStr "s4") (VStr "2024-04-01T09:00:00.000+0000")
      "a0J5e000009ZzZzEAK" (VInt 4) (VInt 1);
    shift (VStr "s5") (VStr "2024-02-01T09:00:00.000+0000")
      "a0J5e000001AbCdEAK" (VInt 8) (VInt 0);
    shift (VStr "s6") (VStr "2024-04-15T09:00:00.000+0000")
      "a0J5e000001AbCdEAK" (VInt 0) (VInt 0) ].

Definition user1 : record :=
  [ ("Id", VStr "0055e000001UsErAAK");
    ("Name", VStr "Volunteer Admin");
    ("Email", VStr "volunteer.admin@example.org");
    ("Username", VStr "volunteer.admin@example.org") ].

Definition db : Soql.org :=
  fun object =>
    if object =? "GW_Volunteers__Volunteer_Job__c" then [job1]
    else if object =? "GW_Volunteers__Volunteer_Shift__c" then shifts
    else if object =? "User" then [user1]
    else [].

Definition field_desc (name label type : string) : record :=
  [ ("name", VStr name); ("label", VStr label); ("type", VStr type) ].

Definition meta : string -> list record :=
  fun object =>
    if object =? "GW_Volunteers__Volunteer_Job__c"
    then [ field_desc "Id" "Record ID" "id";
           field_desc "OwnerId" "Owner ID" "reference";
           field_desc "Name" "Volunteer Job Name" "string" ]
    else [ field_desc "Id" "Record ID" "id";
           field_desc "GW_Volunteers__Start_Date_Time__c" "Start Date & Time"
             "datetime" ].

(** The library is there and the service answers from [db] *)
Definition online : world :=
  {| import_simple_salesforce := Ok tt;
     Salesforce := fun _ _ =>
       Ok (session_of db meta "wmm.my.salesforce.com") |}.

End Sample.

(** A service with one shift whose still-needed count is null *)
Module SampleNull.

Definition db : Soql.org :=
  fun object =>
    if object =? "GW_Volunteers__Volunteer_Job__c" then [Sample.job1]
    else if object =? "GW_Volunteers__Volunteer_Shift__c"
    then [ Sample.shift (VStr "s7") (VStr "2024-06-01T09:00:00.000+0000")
             "a0J5e000001AbCdEAK" (VInt 5) VNone ]
    else [].

Definition online : world :=
  {| import_simple_salesforce := Ok tt;
     Salesforce := fun _ _ =>
       Ok (Sample.session_of db Sample.meta "wmm.my.salesforce.com") |}.

End SampleNull.

(** ** What the field listing is expected to print *)

Module Listing.

Definition has (key : string) (f : record) : bool :=
  match Dict.lookup key f with
  | Some _ => true
  | None => false
  end.

(** The descriptor's name is on the allow-list *)
Definition listed (names : list string) (f : record) : bool :=
  existsb (fun n => value_eqb (Dict.get f "name" VNone) (VStr n)) names.

(** The line printed for a descriptor: name, label and type *)
Definition field_line (f : record) : string :=
  py_str (Dict.get f "name" VNone) ++ ": "
  ++ py_str (Dict.get f "label" VNone)
  ++ " (" ++ py_str (Dict.get f "type" VNone) ++ ")".

(** A descriptor the listing can handle: it has a name and, when the name
    is on the allow-list, a label and a type *)
Definition described (names : list string) (f : record) : bool :=
  has "name" f
  && (negb (listed names f) || (has "label" f && has "type" f)).

End Listing.

(** * Properties *)

Local Open Scope string_scope.

(** ** Facts about the string primitives *)

Section StringFacts.

Lemma prefix_has_char (c : ascii) (p s : string) :
  prefix p s = true -> Py.has_char c p = true -> Py.has_char c s = true.
Proof.
  revert s; induction p as [|a p IH]; intros s Hp Hc; [discriminate|].
  destruct s as [|b s]; [discriminate|].
  simpl in Hp. destruct (ascii_dec a b) as [->|]; [|discriminate].
  simpl in *. apply orb_true_iff in Hc as [Hc|Hc].
  - now rewrite Hc.
  - rewrite (IH s Hp Hc). apply orb_true_r.
Qed.

Lemma replace_absent_char (c : ascii) (old new s : string) :
  Py.has_char c old = true -> Py.has_char c s = false ->
  Py.replace old new s = s.
Proof.
  intros Hold. unfold Py.replace.
  induction s as [|a s IH]; intros Hs; [reflexivity|].
  cbn [Py.replace_from].
  destruct (prefix old (String a s)) eqn:Hp.
  - rewrite (prefix_has_char c _ _ Hp Hold) in Hs. discriminate.
  - simpl in Hs. apply orb_false_iff in Hs as [_ Hs]. now rewrite IH.
Qed.

Lemma rstrip_absent_char (c : ascii) (s : string) :
  Py.has_char c s = false -> Py.rstrip (String c "") s = s.
Proof.
  induction s as [|a s IH]; intros Hs; [reflexivity|].
  simpl in Hs. apply orb_false_iff in Hs as [Hca Hs].
  cbn [Py.rstrip]. rewrite (IH Hs).
  destruct s; [|reflexivity].
  simpl. rewrite Ascii.eqb_sym, Hca. reflexivity.
Qed.

Lemma lstrip_absent_char (c : ascii) (p : ascii -> bool) (s : string) :
  Py.has_char c s = false -> Py.has_char c (Py.lstrip_by p s) = false.
Proof.
  induction s as [|a s IH]; intros Hs; [reflexivity|].
  cbn [Py.lstrip_by]. destruct (p a); [|exact Hs].
  cbn [Py.has_char] in Hs. apply orb_false_iff in Hs as [_ Hs]. now apply IH.
Qed.

Lemma remove_absent_char (c : ascii) (old s : string) :
  Py.has_char c s = false -> Py.has_char c (Py.replace old "" s) = false.
Proof.
  unfold Py.replace. generalize 0 as k. induction s as [|a s IH]; intros k Hs;
    [reflexivity|].
  cbn [Py.has_char] in Hs. apply orb_false_iff in Hs as [Ha Hs].
  cbn [Py.replace_from]. destruct k as [|k]; [|now apply IH].
  destruct (prefix old (String a s)).
  - cbn [append]. now apply IH.
  - cbn [Py.has_char]. rewrite Ha. now apply IH.
Qed.

Lemma drop_absent_char (c : ascii) (n : nat) (s : string) :
  Py.has_char c s = false -> Py.has_char c (Py.drop n s) = false.
Proof.
  revert s; induction n as [|n IH]; intros [|a s] Hs; try exact Hs.
  cbn [Py.has_char] in Hs. apply orb_false_iff in Hs as [_ Hs].
  cbn [Py.drop]. now apply IH.
Qed.

Lemma contains_prefix (p s : string) :
  prefix p s = true -> Py.contains p s = true.
Proof. intros Hp. destruct s; cbn [Py.contains]; now rewrite Hp. Qed.

Lemma contains_empty (p : string) :
  Py.contains p "" = true -> p = "".
Proof. destruct p; [reflexivity|]. simpl. discriminate. Qed.

End StringFacts.

(** ** The network location has no slash *)

Section NetlocFacts.
Context `{Urllib.Oracle}.

Lemma take_until_delim_no_slash (s : string) :
  Py.has_char "/" (Urllib.take_until_delim s) = false.
Proof.
  induction s as [|c s IH]; [reflexivity|].
  cbn [Urllib.take_until_delim].
  destruct (Urllib.is_netloc_delim c) eqn:Hd; [reflexivity|].
  unfold Urllib.is_netloc_delim in Hd.
  apply orb_false_iff in Hd as [Hd _]. apply orb_false_iff in Hd as [Hd _].
  cbn [Py.has_char]. now rewrite Ascii.eqb_sym, Hd.
Qed.

Lemma rbind_ok {A B} (r : Result A) (k : A -> Result B) (b : B) :
  rbind r k = Ok b -> exists a, r = Ok a /\ k a = Ok b.
Proof. destruct r as [a|e]; simpl; [eauto | discriminate]. Qed.

Lemma netloc_no_slash (url n : string) :
  Urllib.netloc url = Ok n -> Py.has_char "/" n = false.
Proof.
  unfold Urllib.netloc. intros Hn.
  apply rbind_ok in Hn as (m & Hm & Hn).
  apply rbind_ok in Hn as (_ & _ & Hn). injection Hn as <-.
  destruct (prefix "//" _); [|injection Hm as <-; reflexivity].
  assert (Hs : Py.has_char "/" (Urllib.splitnetloc
    (snd (Urllib.split_scheme (Urllib.remove_unsafe_bytes
      (Py.lstrip_by Urllib.is_c0_control_or_space url))))) = false)
    by apply take_until_delim_no_slash.
  destruct (_ || _); [discriminate|].
  destruct (_ && _).
  - apply rbind_ok in Hm as (_ & _ & Hm). injection Hm as <-. exact Hs.
  - injection Hm as <-. exact Hs.
Qed.

Lemma split_scheme_absent_char (c : ascii) (url : string) :
  Py.has_char c url = false ->
  Py.has_char c (snd (Urllib.split_scheme url)) = false.
Proof.
  intros Hu. unfold Urllib.split_scheme.
  destruct (Py.find ":" url) as [[|i]|]; try exact Hu.
  destruct url as [|c0 url']; [exact Hu|].
  destruct (_ && _); [|exact Hu].
  now apply drop_absent_char.
Qed.

(** A string without any slash has no network location. *)
Lemma netloc_without_slash (url : string) :
  Py.has_char "/" url = false -> Urllib.netloc url = Ok "".
Proof.
  intros Hu. unfold Urllib.netloc.
  assert (Hs : Py.has_char "/"
                 (snd (Urllib.split_scheme (Urllib.remove_unsafe_bytes
                    (Py.lstrip_by Urllib.is_c0_control_or_space url))))
               = false).
  { apply split_scheme_absent_char. unfold Urllib.remove_unsafe_bytes.
    do 3 apply remove_absent_char. now apply lstrip_absent_char. }
  destruct (prefix "//" _) eqn:Hp; [|reflexivity].
  rewrite (prefix_has_char "/" _ _ Hp eq_refl) in Hs. discriminate.
Qed.

(** Stripping scheme prefixes and trailing slashes leaves a network
    location as it is. *)
Lemma strip_netloc (url n : string) :
  Urllib.netloc url = Ok n ->
  Py.rstrip "/" (Py.replace "http://" "" (Py.replace "https://" "" n)) = n.
Proof.
  intros Hn. pose proof (netloc_no_slash _ _ Hn) as Hs.
  rewrite (replace_absent_char "/" "https://" "" n eq_refl Hs).
  rewrite (replace_absent_char "/" "http://" "" n eq_refl Hs).
  now apply rstrip_absent_char.
Qed.

Lemma normalize_domain_http (domain : string) :
  Py.contains "http" domain = true ->
  Bootstrapper.normalize_domain domain = Urllib.netloc domain.
Proof.
  intros Hc. unfold Bootstrapper.normalize_domain. rewrite Hc.
  destruct (Urllib.netloc domain) as [n|e] eqn:Hn; [|reflexivity].
  simpl. now rewrite (strip_netloc _ _ Hn).
Qed.

Lemma normalize_domain_plain (domain : string) :
  Py.contains "http" domain = false ->
  Bootstrapper.normalize_domain domain =
  Ok (Py.rstrip "/" (Py.replace "http://" "" (Py.replace "https://" "" domain))).
Proof.
  intros Hc. unfold Bootstrapper.normalize_domain. now rewrite Hc.
Qed.

End NetlocFacts.

(** ** Domain normalisation and the authentication branch *)

Section Bootstrap.
Context `{Urllib.Oracle}.

Lemma select_auth_instance (host : string) :
  Py.contains "lightning.force.com" host = true ->
  Bootstrapper.select_auth host = InstanceUrl ("https://" ++ host).
Proof. intros Hc. unfold Bootstrapper.select_auth. now rewrite Hc. Qed.

Lemma select_auth_named (host : string) :
  Py.contains "lightning.force.com" host = false ->
  Bootstrapper.select_auth host = NamedDomain host.
Proof. intros Hc. unfold Bootstrapper.select_auth. now rewrite Hc. Qed.

(** C3 (amended): for every input domain string that contains the substring
    [http] (so every lower-case [http://] or [https://] URL), the
    normalisation parses the string and keeps only the network location;
    stripping scheme prefixes and trailing slashes afterwards leaves that
    location unchanged.  The scripts' own literal
    [https://wmm.lightning.force.com/] normalises to
    [wmm.lightning.force.com]. *)
Theorem C3_normalize_keeps_netloc (domain : string) :
  Py.contains "http" domain = true ->
  Bootstrapper.normalize_domain domain =
    rbind (Urllib.netloc domain)
      (fun n => Ok (Py.rstrip "/"
                      (Py.replace "http://" "" (Py.replace "https://" "" n))))
  /\ Bootstrapper.normalize_domain domain = Urllib.netloc domain
  /\ Bootstrapper.normalize_domain "https://wmm.lightning.force.com/"
     = Ok "wmm.lightning.force.com".
Proof.
  intros Hc. split; [|split].
  - unfold Bootstrapper.normalize_domain. rewrite Hc.
    now destruct (Urllib.netloc domain).
  - now apply normalize_domain_http.
  - reflexivity.
Qed.

(** C4: the instance-URL branch, with the URL [https://] + host, is taken
    exactly when the host contains [lightning.force.com]; the named-domain
    branch, with the host as domain, is taken exactly otherwise. *)
Theorem C4_auth_branch (host : string) :
  (Py.contains "lightning.force.com" host = true <->
   Bootstrapper.select_auth host = InstanceUrl ("https://" ++ host))
  /\ (Py.contains "lightning.force.com" host = false <->
      Bootstrapper.select_auth host = NamedDomain host)
  /\ ((exists url, Bootstrapper.select_auth host = InstanceUrl url) <->
      Py.contains "lightning.force.com" host = true).
Proof.
  unfold Bootstrapper.select_auth.
  destruct (Py.contains "lightning.force.com" host); repeat split;
    try discriminate; try reflexivity; try (intros [url Hu]; discriminate).
  intros _. now exists ("https://" ++ host).
Qed.

(** C9 (amended): the explorer does not normalise the domain and always
    takes the instance-URL branch with the raw string.  It passes the same
    argument to the constructor as the bootstrapper exactly when the
    bootstrapper's host contains [lightning.force.com] and the raw string
    is already [https://] + host. *)
Theorem C9_bootstraps_compared (domain host : string) :
  Bootstrapper.normalize_domain domain = Ok host ->
  Explorer.auth_for domain = InstanceUrl domain
  /\ (Bootstrapper.auth_for domain = Ok (Explorer.auth_for domain) <->
      Py.contains "lightning.force.com" host = true
      /\ domain = "https://" ++ host).
Proof.
  intros Hn. split; [reflexivity|].
  unfold Bootstrapper.auth_for, Explorer.auth_for. rewrite Hn. simpl.
  unfold Bootstrapper.select_auth.
  destruct (Py.contains "lightning.force.com" host); split.
  - intros Heq. injection Heq as Heq. now split.
  - intros [_ ->]. reflexivity.
  - discriminate.
  - intros [Hf _]. discriminate.
Qed.

(** C10 (amended): the normalisation parses the input as a URL whenever
    the substring [http] occurs in it, scheme or no scheme.  When the parse
    finds no network location, as for every input without a slash, the
    normalised host is the empty string and the named-domain branch is
    taken with an empty domain; the bare host [httpbin.my.salesforce.com]
    is such an input. *)
Theorem C10_http_substring_triggers_parse (domain : string) :
  Py.contains "http" domain = true ->
  Bootstrapper.normalize_domain domain = Urllib.netloc domain
  /\ (Urllib.netloc domain = Ok "" ->
      Bootstrapper.normalize_domain domain = Ok ""
      /\ Bootstrapper.auth_for domain = Ok (NamedDomain ""))
  /\ (Py.has_char "/" domain = false ->
      Bootstrapper.normalize_domain domain = Ok ""
      /\ Bootstrapper.auth_for domain = Ok (NamedDomain ""))
  /\ (Py.contains "http" "httpbin.my.salesforce.com" = true
      /\ Urllib.scheme "httpbin.my.salesforce.com" = ""
      /\ Urllib.netloc "httpbin.my.salesforce.com" = Ok ""
      /\ Bootstrapper.normalize_domain "httpbin.my.salesforce.com" = Ok ""
      /\ Bootstrapper.auth_for "httpbin.my.salesforce.com"
         = Ok (NamedDomain "")).
Proof.
  intros Hc. pose proof (normalize_domain_http domain Hc) as Hn.
  assert (Hempty : Urllib.netloc domain = Ok "" ->
                   Bootstrapper.normalize_domain domain = Ok ""
                   /\ Bootstrapper.auth_for domain = Ok (NamedDomain "")).
  { intros He. rewrite He in Hn. split; [exact Hn|].
    unfold Bootstrapper.auth_for. now rewrite Hn. }
  split; [exact Hn|split; [exact Hempty|split]].
  - intros Hs. apply Hempty. now apply netloc_without_slash.
  - repeat split.
Qed.

End Bootstrap.

(** Closed instances, run against [Urllib.plain_oracle]. *)

Lemma C3_witness :
  Py.contains "http" "http://login.salesforce.com/" = true
  /\ @Bootstrapper.normalize_domain Urllib.plain_oracle
       "http://login.salesforce.com/" = Ok "login.salesforce.com".
Proof.
  split; [reflexivity|].
  destruct (@C3_normalize_keeps_netloc Urllib.plain_oracle
              "http://login.salesforce.com/" eq_refl) as (_ & Hn & _).
  rewrite Hn. reflexivity.
Defined.

(** C3, as first stated, fails: these two inputs carry a URL scheme, yet
    neither contains the lower-case substring [http], so neither is parsed
    and the scheme stays in the result. *)
Lemma C3_counterexample :
  (Urllib.scheme "HTTPS://WMM.LIGHTNING.FORCE.COM/" = "https"
   /\ @Urllib.netloc Urllib.plain_oracle "HTTPS://WMM.LIGHTNING.FORCE.COM/"
      = Ok "WMM.LIGHTNING.FORCE.COM"
   /\ @Bootstrapper.normalize_domain Urllib.plain_oracle
        "HTTPS://WMM.LIGHTNING.FORCE.COM/"
      = Ok "HTTPS://WMM.LIGHTNING.FORCE.COM")
  /\ (Urllib.scheme "ftp://example.com/" = "ftp"
      /\ @Urllib.netloc Urllib.plain_oracle "ftp://example.com/"
         = Ok "example.com"
      /\ @Bootstrapper.normalize_domain Urllib.plain_oracle
           "ftp://example.com/" = Ok "ftp://example.com").
Proof. repeat split. Qed.

Lemma C9_witness :
  @Bootstrapper.normalize_domain Urllib.plain_oracle
    "https://wmm.lightning.force.com" = Ok "wmm.lightning.force.com"
  /\ @Bootstrapper.auth_for Urllib.plain_oracle
       "https://wmm.lightning.force.com"
     = Ok (Explorer.auth_for "https://wmm.lightning.force.com").
Proof.
  split; [reflexivity|].
  apply (@C9_bootstraps_compared Urllib.plain_oracle
           "https://wmm.lightning.force.com" "wmm.lightning.force.com"
           eq_refl).
  split; reflexivity.
Defined.

(** C9, as first stated, fails on the scripts' own literal: both take the
    instance-URL branch, but the explorer's URL keeps the trailing slash.
    On [login] the branches differ as well. *)
Lemma C9_counterexample :
  (Explorer.auth_for Explorer.domain
   = InstanceUrl "https://wmm.lightning.force.com/"
   /\ @Bootstrapper.auth_for Urllib.plain_oracle Bootstrapper.domain
      = Ok (InstanceUrl "https://wmm.lightning.force.com")
   /\ Explorer.domain = Bootstrapper.domain
   /\ @Bootstrapper.auth_for Urllib.plain_oracle Bootstrapper.domain
      <> Ok (Explorer.auth_for Explorer.domain))
  /\ (Explorer.auth_for "login" = InstanceUrl "login"
      /\ @Bootstrapper.auth_for Urllib.plain_oracle "login"
         = Ok (NamedDomain "login")).
Proof. repeat split. discriminate. Qed.

Lemma C10_witness :
  Py.contains "http" "httpbin.my.salesforce.com" = true
  /\ @Bootstrapper.normalize_domain Urllib.plain_oracle
       "httpbin.my.salesforce.com" = Ok ""
  /\ @Bootstrapper.auth_for Urllib.plain_oracle "httpbin.my.salesforce.com"
     = Ok (NamedDomain "").
Proof.
  split; [reflexivity|].
  destruct (@C10_http_substring_triggers_parse Urllib.plain_oracle
              "httpbin.my.salesforce.com" eq_refl) as (_ & Hn & _).
  exact (Hn eq_refl).
Defined.

(** C10, as first stated, fails on a scheme-relative input: it contains
    [http] and, lacking a scheme, is no absolute URL, yet it has a network
    location, and that location is the normalised host. *)
Lemma C10_counterexample :
  Py.contains "http" "//httpbin.org/x" = true
  /\ Urllib.scheme "//httpbin.org/x" = ""
  /\ @Bootstrapper.normalize_domain Urllib.plain_oracle "//httpbin.org/x"
     = Ok "httpbin.org"
  /\ @Bootstrapper.normalize_domain Urllib.plain_oracle "//httpbin.org/x"
     <> Ok ""
  /\ @Bootstrapper.auth_for Urllib.plain_oracle "//httpbin.org/x"
     = Ok (NamedDomain "httpbin.org").
Proof. repeat split. discriminate. Qed.

(** ** The derived value [filled] *)

Section Filled.

Lemma filled_falsy_total (shift : record) :
  truthy (Explorer.total_spots shift) = false ->
  Explorer.filled shift = Ok (VInt 0).
Proof. intros Ht. unfold Explorer.filled. now rewrite Ht. Qed.

Lemma filled_int (shift : record) (t s : Z) :
  Explorer.total_spots shift = VInt t ->
  Explorer.still_needed shift = VInt s ->
  Explorer.filled shift = Ok (VInt (if (t =? 0)%Z then 0 else t - s)).
Proof.
  intros Ht Hs. unfold Explorer.filled. rewrite Ht, Hs. simpl.
  now destruct (t =? 0)%Z.
Qed.


Lemma still_needed_lookup (shift : record) :
  Explorer.still_needed shift =
  match Dict.lookup Explorer.STILL_NEEDED shift with
  | Some v => v
  | None => VInt 0
  end.
Proof. reflexivity. Qed.

End Filled.


(** ** The meaning of the queries *)

Section OrderFacts.

Lemma string_leb_iff (a b : string) :
  String.leb a b = true <-> String_as_OT.lt a b \/ a = b.
Proof.
  unfold String.leb.
  pose proof (String_as_OT.cmp_lt a b) as Hlt.
  pose proof (String_as_OT.cmp_eq a b) as Heq.
  pose proof (String_as_OT.cmp_lt b a) as Hgt.
  pose proof (String_as_OT.cmp_antisym a b) as Hanti.
  unfold String_as_OT.cmp in *.
  destruct (String.compare a b) eqn:Hc; split; intros Hx;
    try reflexivity; try discriminate.
  - right. now apply Heq.
  - left. now apply Hlt.
  - exfalso. destruct Hx as [Hx| ->].
    + apply Hlt in Hx. discriminate.
    + assert (He : String.compare b b = Eq) by now apply String_as_OT.cmp_eq.
      rewrite He in Hc. discriminate.
Qed.

Lemma string_leb_trans (a b c : string) :
  String.leb a b = true -> String.leb b c = true -> String.leb a c = true.
Proof.
  rewrite !string_leb_iff. intros [Hab| ->] [Hbc| ->]; auto.
  left. eapply String_as_OT.lt_trans; eauto.
Qed.

Lemma value_leb_total (a b : value) :
  Soql.value_leb a b = false -> Soql.value_leb b a = true.
Proof.
  destruct a as [|[]|x|s], b as [|[]|y|t]; simpl; intros Hab;
    try reflexivity; try discriminate; try lia.
  destruct (String.leb_total s t) as [Hst|Hts]; [congruence|exact Hts].
Qed.

Lemma value_leb_trans (a b c : value) :
  Soql.value_leb a b = true -> Soql.value_leb b c = true ->
  Soql.value_leb a c = true.
Proof.
  destruct a as [|[]|x|s], b as [|[]|y|t], c as [|[]|z|u]; simpl;
    intros Hab Hbc; try reflexivity; try discriminate; try lia.
  eapply string_leb_trans; eauto.
Qed.

Lemma comes_first_total (d : Soql.direction) (a b : value) :
  Soql.comes_first d a b = false -> Soql.comes_first d b a = true.
Proof.
  unfold Soql.comes_first.
  destruct (Soql.is_null a) eqn:Ha; [discriminate|].
  destruct (Soql.is_null b) eqn:Hb; [reflexivity|].
  simpl. destruct d; apply value_leb_total.
Qed.

Lemma comes_first_trans (d : Soql.direction) (a b c : value) :
  Soql.comes_first d a b = true -> Soql.comes_first d b c = true ->
  Soql.comes_first d a c = true.
Proof.
  unfold Soql.comes_first.
  destruct (Soql.is_null a) eqn:Ha; [reflexivity|].
  destruct (Soql.is_null b) eqn:Hb; [discriminate|].
  destruct (Soql.is_null c) eqn:Hc; [discriminate|].
  simpl. destruct d; intros Hab Hbc.
  - eapply value_leb_trans; eauto.
  - eapply value_leb_trans; eauto.
Qed.

End OrderFacts.

Section SortFacts.
Variable f : string.
Variable d : Soql.direction.

(** [before a b]: row [a] may stand before row [b] *)
Let before (a b : record) : Prop :=
  Soql.comes_first d (Soql.field f a) (Soql.field f b) = true.

Lemma insert_row_In (x r : record) (rows : list record) :
  In x (Soql.insert_row f d r rows) <-> x = r \/ In x rows.
Proof.
  induction rows as [|y rows IH]; simpl.
  - intuition.
  - destruct (Soql.comes_first d (Soql.field f r) (Soql.field f y)); simpl;
      rewrite ?IH; intuition.
Qed.

Lemma sort_rows_In (x : record) (rows : list record) :
  In x (Soql.sort_rows f d rows) <-> In x rows.
Proof.
  unfold Soql.sort_rows. induction rows as [|y rows IH]; simpl.
  - tauto.
  - rewrite insert_row_In, IH. intuition.
Qed.

Lemma insert_row_sorted (r : record) (rows : list record) :
  StronglySorted before rows ->
  StronglySorted before (Soql.insert_row f d r rows).
Proof.
  induction 1 as [|y rows Hs IH Hall]; simpl.
  - constructor; [constructor|constructor].
  - destruct (Soql.comes_first d (Soql.field f r) (Soql.field f y)) eqn:Hc.
    + constructor; [now constructor|].
      constructor; [exact Hc|].
      rewrite Forall_forall in *. intros z Hz.
      unfold before in *. eapply comes_first_trans; [exact Hc|]. now apply Hall.
    + constructor; [exact IH|].
      rewrite Forall_forall in *. intros z Hz.
      apply insert_row_In in Hz as [->|Hz]; [|now apply Hall].
      unfold before. now apply comes_first_total.
Qed.

Lemma sort_rows_sorted (rows : list record) :
  StronglySorted before (Soql.sort_rows f d rows).
Proof.
  unfold Soql.sort_rows. induction rows as [|y rows IH]; simpl.
  - constructor.
  - now apply insert_row_sorted.
Qed.

End SortFacts.

Section ListFacts.
Context {A : Type}.

Lemma firstn_In (n : nat) (l : list A) (x : A) :
  In x (firstn n l) -> In x l.
Proof.
  revert l; induction n as [|n IH]; intros [|y l]; simpl; try tauto.
  intros [->|Hx]; auto.
Qed.

Lemma firstn_sorted (R : A -> A -> Prop) (n : nat) (l : list A) :
  StronglySorted R l -> StronglySorted R (firstn n l).
Proof.
  revert l; induction n as [|n IH]; intros l Hs; [constructor|].
  destruct Hs as [|y l Hs Hall]; simpl; [constructor|].
  constructor; [now apply IH|].
  rewrite Forall_forall in *. intros z Hz. apply Hall. eapply firstn_In; eauto.
Qed.

Lemma sorted_weaken (R R' : A -> A -> Prop) (P : A -> Prop) (l : list A) :
  (forall a b, P a -> P b -> R a b -> R' a b) ->
  Forall P l -> StronglySorted R l -> StronglySorted R' l.
Proof.
  intros Himp Hp Hs. induction Hs as [|y l Hs IH Hall]; [constructor|].
  inversion Hp as [|? ? Hy Hl]; subst.
  constructor; [now apply IH|].
  rewrite Forall_forall in *. intros z Hz. apply Himp; auto.
Qed.

Lemma sorted_map {B : Type} (g : A -> B) (R : B -> B -> Prop) (l : list A) :
  StronglySorted (fun a b => R (g a) (g b)) l -> StronglySorted R (map g l).
Proof.
  induction 1 as [|y l Hs IH Hall]; simpl; constructor; [exact IH|].
  rewrite Forall_forall in *. intros z Hz.
  apply in_map_iff in Hz as (a & <- & Ha). now apply Hall.
Qed.

End ListFacts.

Section QueryFacts.
Variable db : Soql.org.

Lemma field_project (fields : list string) (g : string) (r : record) :
  In g fields -> Soql.field g (Soql.project fields r) = Soql.field g r.
Proof.
  unfold Soql.field at 1, Dict.get, Soql.project.
  induction fields as [|h fields IH]; simpl; [tauto|].
  intros Hin. destruct (h =? g) eqn:Hhg.
  - apply String.eqb_eq in Hhg. now subst.
  - apply String.eqb_neq in Hhg. destruct Hin as [->|Hin]; [congruence|].
    now apply IH.
Qed.

Lemma project_keys (fields : list string) (r : record) :
  map fst (Soql.project fields r) = fields.
Proof.
  unfold Soql.project. rewrite map_map. simpl. apply map_id.
Qed.

Lemma eval_rows_In (q : Soql.query) (r : record) :
  In r (Soql.eval_rows db q) ->
  In r (db (Soql.from q)) /\ forallb (Soql.holds r) (Soql.where_ q) = true.
Proof.
  unfold Soql.eval_rows. intros Hin.
  assert (Hs : In r (match Soql.order_by q with
                     | Some (g, d) =>
                         Soql.sort_rows g d
                           (filter (fun r => forallb (Soql.holds r) (Soql.where_ q))
                              (db (Soql.from q)))
                     | None =>
                         filter (fun r => forallb (Soql.holds r) (Soql.where_ q))
                           (db (Soql.from q))
                     end)).
  { destruct (Soql.limit q); [eapply firstn_In; eauto|exact Hin]. }
  destruct (Soql.order_by q) as [[g d]|].
  - apply sort_rows_In in Hs. now apply filter_In in Hs.
  - now apply filter_In in Hs.
Qed.

Lemma eval_rows_length (q : Soql.query) (n : nat) :
  Soql.limit q = Some n -> List.length (Soql.eval_rows db q) <= n.
Proof.
  unfold Soql.eval_rows. intros ->. apply firstn_le_length.
Qed.

Lemma eval_rows_sorted (q : Soql.query) (g : string) (d : Soql.direction) :
  Soql.order_by q = Some (g, d) ->
  StronglySorted
    (fun a b => Soql.comes_first d (Soql.field g a) (Soql.field g b) = true)
    (Soql.eval_rows db q).
Proof.
  unfold Soql.eval_rows. intros ->.
  destruct (Soql.limit q); [apply firstn_sorted|]; apply sort_rows_sorted.
Qed.

Lemma holds_eq (r : record) (g lit : string) :
  Soql.holds r (Soql.Eq g lit) = true -> Soql.field g r = VStr lit.
Proof.
  simpl. destruct (Soql.field g r) as [|[]|z|s]; simpl; try discriminate.
  intros He. apply String.eqb_eq in He. now subst.
Qed.

Lemma holds_not_null (r : record) (g : string) :
  Soql.holds r (Soql.NotNull g) = true -> Soql.field g r <> VNone.
Proof.
  simpl. destruct (Soql.field g r); simpl; discriminate.
Qed.

(** The rows behind the answer to the shift query of a job *)
Lemma shift_rows_spec (job_id : string) (r : record) :
  In r (Soql.eval_rows db (Explorer.shifts_query job_id)) ->
  In r (db "GW_Volunteers__Volunteer_Shift__c")
  /\ Soql.field Explorer.JOB_REF r = VStr job_id
  /\ Soql.field Explorer.START r <> VNone.
Proof.
  intros Hin. apply eval_rows_In in Hin as [Hdb Hw].
  split; [exact Hdb|].
  cbn [Explorer.shifts_query Soql.where_ forallb] in Hw.
  apply andb_true_iff in Hw as [He Hw]. apply andb_true_iff in Hw as [Hn _].
  split; [now apply holds_eq|now apply holds_not_null].
Qed.

(** C5: the answer to the shift query of a job has at most 3 records; each
    is the projection of a shift row of the organisation whose parent-job
    reference is that job's identifier and whose start timestamp is not
    null; no returned record has a null start timestamp; and the records
    are in descending order of start timestamp. *)
Theorem C5_shift_query (job_id : string) :
  List.length (Soql.eval db (Explorer.shifts_query job_id)) <= 3
  /\ (exists rows,
        Soql.eval db (Explorer.shifts_query job_id)
        = map (Soql.project (Soql.select (Explorer.shifts_query job_id))) rows
        /\ Forall (fun r =>
                     In r (db "GW_Volunteers__Volunteer_Shift__c")
                     /\ Soql.field Explorer.JOB_REF r = VStr job_id
                     /\ Soql.field Explorer.START r <> VNone) rows)
  /\ Forall (fun r => Soql.field Explorer.START r <> VNone)
       (Soql.eval db (Explorer.shifts_query job_id))
  /\ StronglySorted
       (fun a b => Soql.value_leb (Soql.field Explorer.START b)
                     (Soql.field Explorer.START a) = true)
       (Soql.eval db (Explorer.shifts_query job_id)).
Proof.
  set (q := Explorer.shifts_query job_id).
  assert (Hsel : In Explorer.START (Soql.select q)) by (simpl; tauto).
  assert (Hrows : Forall (fun r =>
                     In r (db "GW_Volunteers__Volunteer_Shift__c")
                     /\ Soql.field Explorer.JOB_REF r = VStr job_id
                     /\ Soql.field Explorer.START r <> VNone)
                    (Soql.eval_rows db q)).
  { apply Forall_forall. intros r Hr. now apply shift_rows_spec. }
  unfold Soql.eval. repeat split.
  - rewrite length_map. now apply eval_rows_length.
  - exists (Soql.eval_rows db q). split; [reflexivity|exact Hrows].
  - apply Forall_forall. intros r Hr.
    apply in_map_iff in Hr as (r0 & <- & Hr0).
    rewrite (field_project _ _ _ Hsel).
    rewrite Forall_forall in Hrows. now apply (Hrows r0).
  - apply sorted_map.
    apply (sorted_weaken
             (fun a b => Soql.comes_first Soql.Desc
                           (Soql.field Explorer.START a)
                           (Soql.field Explorer.START b) = true)
             _ (fun r => Soql.field Explorer.START r <> VNone)).
    + intros a b Ha Hb. rewrite !(field_project _ _ _ Hsel).
      unfold Soql.comes_first.
      destruct (Soql.field Explorer.START a); [congruence| | |];
        (destruct (Soql.field Explorer.START b); [congruence| | |]);
        simpl; auto.
    + eapply Forall_impl; [|exact Hrows]. now intros r (_ & _ & Hn).
    + now apply eval_rows_sorted.
Qed.

(** C7 (amended): the job query asks for at most 5 records and projects
    exactly 7 fields; its answer has at most 5 records, each with exactly
    those 7 fields. *)
Theorem C7_jobs_query :
  Soql.limit Explorer.jobs_query = Some 5
  /\ List.length (Soql.select Explorer.jobs_query) = 7
  /\ List.length (Soql.eval db Explorer.jobs_query) <= 5
  /\ Forall (fun r => map fst r = Soql.select Explorer.jobs_query
                      /\ List.length r = 7)
       (Soql.eval db Explorer.jobs_query).
Proof.
  repeat split.
  - unfold Soql.eval. rewrite length_map. now apply eval_rows_length.
  - apply Forall_forall. intros r Hr. unfold Soql.eval in Hr.
    apply in_map_iff in Hr as (r0 & <- & _). split.
    + apply project_keys.
    + unfold Soql.project. now rewrite length_map.
Qed.

End QueryFacts.

(** C7, as first stated, fails: the projection has 7 fields, not 6. *)
Lemma C7_counterexample :
  Soql.select Explorer.jobs_query
  = ["Id"; "Name"; "GW_Volunteers__Description__c";
     "GW_Volunteers__Location__c"; "GW_Volunteers__Campaign__c";
     "GW_Volunteers__Skills_Needed__c";
     "GW_Volunteers__Display_on_Website__c"]
  /\ List.length (Soql.select Explorer.jobs_query) = 7
  /\ List.length (Soql.select Explorer.jobs_query) <> 6.
Proof. repeat split. discriminate. Qed.

(** ** The scripts as whole runs *)

Section Runs.
Context `{Urllib.Oracle}.
Variable creds : credentials.

Lemma bootstrapper_import_error (domain : string) (w : world) (e : exn) :
  import_simple_salesforce w = Raise e ->
  exn_kind e = ImportError ->
  Bootstrapper.run creds domain w =
  {| stdout := [PrintJson (Bootstrapper.failure_result
                             "simple-salesforce not installed: " e)];
     status := ExitNormally |}.
Proof.
  intros Hi Hk.
  unfold Bootstrapper.run, run_script, try_except, Bootstrapper.connect,
    bind, lift.
  rewrite Hi. unfold Bootstrapper.handlers. rewrite Hk. reflexivity.
Qed.

Lemma explorer_import_error (domain : string) (w : world) (e : exn) :
  import_simple_salesforce w = Raise e ->
  Explorer.run creds domain w = {| stdout := []; status := Traceback e |}.
Proof.
  intros Hi. unfold Explorer.run, run_script, bind, lift.
  now rewrite Hi.
Qed.

(** C2 (amended): when the client library is absent at import time, the
    bootstrapper writes one result object with [success: false] and a
    message saying that the dependency is not installed, and exits
    normally.  The explorer imports the library before its [try] block:
    there the error is not caught, nothing is written, and the run ends
    in a traceback. *)
Theorem C2_missing_library (domain : string) (w : world) (msg : string) :
  import_simple_salesforce w = Raise (Exn ImportError msg) ->
  Bootstrapper.run creds domain w =
    {| stdout :=
         [PrintJson
            (JObj [ ("success", JBool false);
                    ("message",
                     JStr ("simple-salesforce not installed: " ++ msg)) ])];
       status := ExitNormally |}
  /\ Explorer.run creds domain w =
       {| stdout := []; status := Traceback (Exn ImportError msg) |}.
Proof.
  intros Hi. split.
  - now rewrite (bootstrapper_import_error domain w _ Hi eq_refl).
  - now apply explorer_import_error.
Qed.

Lemma handlers_failure (e : exn) :
  exists msg,
    Bootstrapper.handlers e =
    Some (print_json (JObj [ ("success", JBool false);
                             ("message", JStr msg) ])).
Proof.
  unfold Bootstrapper.handlers, Bootstrapper.failure_result.
  destruct (exn_kind e); eauto.
Qed.

(** The bootstrapper's run, step by step: the first step that raises
    decides the failure document; when none raises the success document
    is written. *)
Lemma bootstrapper_run_cases (domain : string) (w : world) :
  (exists host sf recs,
      import_simple_salesforce w = Ok tt
      /\ Bootstrapper.normalize_domain domain = Ok host
      /\ Salesforce w creds (Bootstrapper.select_auth host) = Ok sf
      /\ sf_query sf (Bootstrapper.user_query (username creds)) = Ok recs
      /\ Bootstrapper.run creds domain w =
         {| stdout := [Print ("Using domain: " ++ host);
                       PrintJson (Bootstrapper.success_result recs sf)];
            status := ExitNormally |})
  \/ (exists msg pre,
        Bootstrapper.run creds domain w =
        {| stdout := (pre ++ [PrintJson
                               (JObj [ ("success", JBool false);
                                       ("message", JStr msg) ])])%list;
           status := ExitNormally |}
        /\ json_docs pre = []).
Proof.
  unfold Bootstrapper.run, run_script, try_except, Bootstrapper.connect,
    bind, lift.
  destruct (import_simple_salesforce w) as [[]|e] eqn:Hi.
  2:{ right. destruct (handlers_failure e) as [msg ->].
      exists msg, []. split; reflexivity. }
  destruct (Bootstrapper.normalize_domain domain) as [host|e] eqn:Hn.
  2:{ right. destruct (handlers_failure e) as [msg ->].
      exists msg, []. split; reflexivity. }
  cbn [print emit].
  destruct (Salesforce w creds (Bootstrapper.select_auth host))
    as [sf|e] eqn:Hs.
  2:{ right. destruct (handlers_failure e) as [msg ->].
      exists msg, [Print ("Using domain: " ++ host)]. split; reflexivity. }
  destruct (sf_query sf (Bootstrapper.user_query (username creds)))
    as [recs|e] eqn:Hq.
  2:{ right. destruct (handlers_failure e) as [msg ->].
      exists msg, [Print ("Using domain: " ++ host)]. split; reflexivity. }
  left. exists host, sf, recs. repeat split; try assumption.
Qed.

End Runs.

Lemma C2_witness :
  import_simple_salesforce Sample.no_library
  = Raise (Exn ImportError "No module named 'simple_salesforce'")
  /\ status (@Bootstrapper.run Urllib.plain_oracle Sample.creds
               Bootstrapper.domain Sample.no_library) = ExitNormally
  /\ status (Explorer.run Sample.creds Bootstrapper.domain
               Sample.no_library)
     = Traceback (Exn ImportError "No module named 'simple_salesforce'").
Proof.
  split; [reflexivity|].
  destruct (@C2_missing_library Urllib.plain_oracle Sample.creds
              Bootstrapper.domain Sample.no_library
              "No module named 'simple_salesforce'" eq_refl) as [Hb He].
  rewrite Hb, He. split; reflexivity.
Defined.

(** C2, as first stated, fails for the explorer: with the library missing
    it writes no result object and does not exit normally. *)
Lemma C2_counterexample :
  import_simple_salesforce Sample.no_library
  = Raise (Exn ImportError "No module named 'simple_salesforce'")
  /\ Explorer.main Sample.creds Sample.no_library
     = {| stdout := [];
          status :=
            Traceback (Exn ImportError "No module named 'simple_salesforce'") |}
  /\ status (Explorer.main Sample.creds Sample.no_library) <> ExitNormally.
Proof. repeat split. discriminate. Qed.

(** C8, as first stated, fails on both failure paths: the document written
    there has neither [userInfo] nor [organizationId]. *)
Lemma C8_counterexample :
  (json_docs (stdout (@Bootstrapper.main Urllib.plain_oracle Sample.creds
                        Sample.no_library))
   = [JObj [ ("success", JBool false);
             ("message",
              JStr "simple-salesforce not installed: No module named 'simple_salesforce'") ]]
   /\ json_docs (stdout (@Bootstrapper.main Urllib.plain_oracle Sample.creds
                           Sample.login_refused))
      = [JObj [ ("success", JBool false);
                ("message",
                 JStr "Connection failed: INVALID_LOGIN: Invalid username or password") ]])
  /\ (json_field "userInfo"
        (JObj [ ("success", JBool false);
                ("message",
                 JStr "Connection failed: INVALID_LOGIN: Invalid username or password") ])
      = None
      /\ json_field "organizationId"
           (JObj [ ("success", JBool false);
                   ("message",
                    JStr "Connection failed: INVALID_LOGIN: Invalid username or password") ])
         = None).
Proof. repeat split. Qed.

(** ** The query text and its structured form *)

Section QueryText.

Lemma words_from_app (cur j rest : string) :
  Py.forall_chars (fun c => negb (Soql.is_space c)) j = true ->
  Soql.words_from cur (j ++ rest) = Soql.words_from (cur ++ j) rest.
Proof.
  revert cur; induction j as [|c j IH]; intros cur Hj.
  - simpl. f_equal. clear. induction cur; simpl; congruence.
  - cbn [Py.forall_chars] in Hj. apply andb_true_iff in Hj as [Hc Hj].
    apply negb_true_iff in Hc.
    cbn [append Soql.words_from]. rewrite Hc, (IH _ Hj). f_equal.
    clear. induction cur; simpl; congruence.
Qed.

Lemma jobs_query_text_words :
  Soql.words Explorer.jobs_query_text = Soql.render Explorer.jobs_query.
Proof. reflexivity. Qed.

Lemma shifts_query_head_words (x : string) :
  Soql.words_from "" (Explorer.shifts_query_head ++ x)
  = (firstn 13 (Soql.render (Explorer.shifts_query ""))
     ++ Soql.words_from "'" x)%list.
Proof. reflexivity. Qed.

(** X15: the words of the shift query's text are the rendering of its
    structured form, for a job identifier without white space: the
    identifier stands between single quotes, as it is. *)
Lemma shifts_query_text_words (job_id : string) :
  Py.forall_chars (fun c => negb (Soql.is_space c)) job_id = true ->
  Soql.words (Explorer.shifts_query_text job_id)
  = Soql.render (Explorer.shifts_query job_id).
Proof.
  intros Hj. unfold Soql.words, Explorer.shifts_query_text.
  rewrite shifts_query_head_words, (words_from_app _ _ _ Hj).
  reflexivity.
Qed.

Lemma user_query_head_words (x : string) :
  Soql.words_from "" (Bootstrapper.user_query_head ++ x)
  = (firstn 9 (Soql.render (Bootstrapper.user_query ""))
     ++ Soql.words_from "'" x)%list.
Proof. reflexivity. Qed.

(** X16: the words of the verification query's text are the rendering of
    its structured form, for a username without white space. *)
Lemma user_query_text_words (username : string) :
  Py.forall_chars (fun c => negb (Soql.is_space c)) username = true ->
  Soql.words (Bootstrapper.user_query_text username)
  = Soql.render (Bootstrapper.user_query username).
Proof.
  intros Hu. unfold Soql.words, Bootstrapper.user_query_text.
  rewrite user_query_head_words, (words_from_app _ _ _ Hu).
  reflexivity.
Qed.

End QueryText.

(** ** Runs on the sample surroundings *)

Section Examples.

Example contains_ex : Py.contains "http" "xhttpx" = true.
Proof. reflexivity. Qed.

Example replace_ex :
  Py.replace "ab" "" "aabbab" = "ab" /\ Py.replace "aa" "b" "aaa" = "ba".
Proof. split; reflexivity. Qed.

Example rstrip_ex : Py.rstrip "/" "a/b//" = "a/b".
Proof. reflexivity. Qed.

Example netloc_ex :
  @Urllib.netloc Urllib.plain_oracle "a+b.c://u@h:80?q" = Ok "u@h:80"
  /\ @Urllib.netloc Urllib.plain_oracle "//httpbin.org/x" = Ok "httpbin.org"
  /\ @Urllib.netloc Urllib.plain_oracle "http:/x" = Ok ""
  /\ @Urllib.netloc Urllib.plain_oracle "http://[::1"
     = Raise (Urllib.value_error "Invalid IPv6 URL").
Proof. repeat split. Qed.

(** The explorer never ends in a traceback once the import succeeded. *)
Lemma explorer_catches_all (creds : credentials) (domain : string)
    (w : world) :
  import_simple_salesforce w = Ok tt ->
  status (Explorer.run creds domain w) = ExitNormally.
Proof.
  intros Hi. unfold Explorer.run, run_script, bind, lift, try_except.
  rewrite Hi.
  destruct (Explorer.explore creds domain w []) as [o [[]|e]]; reflexivity.
Qed.

Example shift_query_ex :
  map (fun r => (Soql.field "Id" r, Soql.field Explorer.START r))
    (Soql.eval Sample.db (Explorer.shifts_query "a0J5e000001AbCdEAK"))
  = [ (VStr "s3", VStr "2024-05-01T09:00:00.000+0000");
      (VStr "s6", VStr "2024-04-15T09:00:00.000+0000");
      (VStr "s1", VStr "2024-03-01T09:00:00.000+0000") ].
Proof. reflexivity. Qed.

Example bootstrapper_online :
  @Bootstrapper.main Urllib.plain_oracle Sample.creds Sample.online
  = {| stdout :=
         [ Print "Using domain: wmm.lightning.force.com";
           PrintJson
             (JObj [ ("success", JBool true);
                     ("message", JStr "Successfully connected to Salesforce");
                     ("userInfo",
                      JObj [ ("Id", JStr "0055e000001UsErAAK");
                             ("Name", JStr "Volunteer Admin");
                             ("Email", JStr "volunteer.admin@example.org") ]);
                     ("organizationId", JStr "wmm.my.salesforce.com") ]) ];
       status := ExitNormally |}.
Proof. reflexivity. Qed.

Example explorer_online_shifts :
  skipn 16 (stdout (Explorer.main Sample.creds Sample.online))
  = [ Print "  Recent Shifts: 3";
      Print "    - 2024-05-01T09:00:00.000+0000 (2h) - 0/None spots";
      Print "    - 2024-04-15T09:00:00.000+0000 (2h) - 0/0 spots";
      Print "    - 2024-03-01T09:00:00.000+0000 (2h) - 7/10 spots" ].
Proof. reflexivity. Qed.

End Examples.

Lemma C4_witness :
  Bootstrapper.select_auth "wmm.lightning.force.com"
  = InstanceUrl "https://wmm.lightning.force.com"
  /\ Bootstrapper.select_auth "login" = NamedDomain "login".
Proof.
  split.
  - apply (proj1 (C4_auth_branch "wmm.lightning.force.com")). reflexivity.
  - apply (proj1 (proj2 (C4_auth_branch "login"))). reflexivity.
Defined.

(** * Further properties of the two scripts *)

(** ** More facts about the string primitives *)

Section MoreStringFacts.

Lemma prefix_trans (a b s : string) :
  prefix a b = true -> prefix b s = true -> prefix a s = true.
Proof.
  revert b s; induction a as [|x a IH]; intros b s Hab Hbs.
  - now destruct s.
  - destruct b as [|y b]; [discriminate|].
    destruct s as [|z s]; [discriminate|].
    simpl in *.
    destruct (ascii_dec x y) as [->|]; [|discriminate].
    destruct (ascii_dec y z) as [->|]; [|discriminate].
    now apply (IH b s).
Qed.

Lemma contains_weaken (a b s : string) :
  prefix a b = true -> Py.contains b s = true -> Py.contains a s = true.
Proof.
  intros Hab. induction s as [|c s IH]; cbn [Py.contains]; intros Hb.
  - apply orb_true_iff in Hb as [Hb|Hb]; [|discriminate].
    now rewrite (prefix_trans a b "" Hab Hb).
  - apply orb_true_iff in Hb as [Hb|Hb].
    + now rewrite (prefix_trans a b _ Hab Hb).
    + rewrite (IH Hb). apply orb_true_r.
Qed.

Lemma replace_no_occurrence (old new s : string) :
  Py.contains old s = false -> Py.replace old new s = s.
Proof.
  unfold Py.replace. induction s as [|c s IH]; intros Hc; [reflexivity|].
  cbn [Py.contains] in Hc. apply orb_false_iff in Hc as [Hp Hc].
  cbn [Py.replace_from]. rewrite Hp. now rewrite IH.
Qed.

Lemma append_nonempty (p : string) (c : ascii) : p ++ String c "" <> "".
Proof. destruct p; discriminate. Qed.

Lemma rstrip_no_trailing (c : ascii) (s p : string) :
  Py.rstrip (String c "") s <> p ++ String c "".
Proof.
  revert p; induction s as [|a s IH]; intros p; cbn [Py.rstrip].
  - intros He. symmetry in He. now apply append_nonempty in He.
  - destruct (Py.rstrip (String c "") s) as [|b r] eqn:Hr.
    + cbn [Py.has_char]. rewrite orb_false_r.
      destruct (Ascii.eqb a c) eqn:Hac.
      * intros He. symmetry in He. now apply append_nonempty in He.
      * destruct p as [|x p]; simpl; intros He; inversion He; subst.
        -- now rewrite Ascii.eqb_refl in Hac.
        -- match goal with
           | Hp : "" = _ |- _ => symmetry in Hp; now apply append_nonempty in Hp
           end.
    + destruct p as [|x p]; simpl; intros He; inversion He; subst.
      now apply (IH p).
Qed.

Lemma rstrip_fixed (c : ascii) (s : string) :
  (forall p, s <> p ++ String c "") -> Py.rstrip (String c "") s = s.
Proof.
  induction s as [|a s IH]; intros Hs; [reflexivity|].
  cbn [Py.rstrip]. rewrite IH.
  - destruct s; [|reflexivity].
    cbn [Py.has_char]. rewrite orb_false_r.
    destruct (Ascii.eqb a c) eqn:Hac; [|reflexivity].
    apply Ascii.eqb_eq in Hac. subst. now destruct (Hs "").
  - intros p Hp. apply (Hs (String a p)). simpl. now rewrite Hp.
Qed.

Lemma rstrip_idempotent (c : ascii) (s : string) :
  Py.rstrip (String c "") (Py.rstrip (String c "") s)
  = Py.rstrip (String c "") s.
Proof. apply rstrip_fixed. intros p. apply rstrip_no_trailing. Qed.

Lemma has_char_append (c : ascii) (p : string) :
  Py.has_char c (p ++ String c "") = true.
Proof.
  induction p as [|a p IH]; simpl.
  - now rewrite Ascii.eqb_refl.
  - rewrite IH. apply orb_true_r.
Qed.

Lemma prefix_rstrip (chars p s : string) :
  prefix p (Py.rstrip chars s) = true -> prefix p s = true.
Proof.
  revert p; induction s as [|a s IH]; intros p; cbn [Py.rstrip].
  - trivial.
  - destruct p as [|x p]; [reflexivity|].
    destruct (Py.rstrip chars s) as [|b r] eqn:Hr.
    + destruct (Py.has_char a chars); [discriminate|].
      simpl. destruct (ascii_dec x a); [|discriminate].
      intros Hp. apply IH. destruct p; [now destruct s|discriminate].
    + simpl. destruct (ascii_dec x a); [|discriminate]. apply IH.
Qed.

Lemma contains_rstrip (chars p s : string) :
  Py.contains p (Py.rstrip chars s) = true -> Py.contains p s = true.
Proof.
  induction s as [|a s IH]; [trivial|].
  intros Hc. cbn [Py.contains].
  destruct (prefix p (String a s)) eqn:Hp; [reflexivity|]. simpl.
  assert (Hnp : prefix p (Py.rstrip chars (String a s)) = false).
  { destruct (prefix p (Py.rstrip chars (String a s))) eqn:Hq; [|reflexivity].
    apply prefix_rstrip in Hq. congruence. }
  apply IH. cbn [Py.rstrip] in Hc, Hnp.
  destruct (Py.rstrip chars s) as [|b r] eqn:Hr.
  - destruct (Py.has_char a chars).
    + exact Hc.
    + cbn [Py.contains] in Hc. rewrite Hnp in Hc. exact Hc.
  - cbn [Py.contains] in Hc. rewrite Hnp in Hc. exact Hc.
Qed.

End MoreStringFacts.

(** ** More about the domain normalisation *)

Section NormalizeMore.
Context `{Urllib.Oracle}.

Lemma check_bracketed_netloc_raises (n : string) (e : exn) :
  Urllib.check_bracketed_netloc n = Raise e -> exn_kind e = ValueError.
Proof.
  unfold Urllib.check_bracketed_netloc.
  destruct (Py.partition "[" (Py.rpartition_tail "@" n)) as [[bb ho] br].
  destruct (Py.partition "]" br) as [[h1 f1] port].
  destruct (Py.partition ":" (Py.rpartition_tail "@" n)) as [[h2 f2] a2].
  destruct ho.
  - destruct (negb (bb =? "")); [intros He; now injection He as <-|].
    destruct (_ && _); [intros He; now injection He as <-|].
    destruct (Urllib.check_bracketed_host h1); [|discriminate].
    intros He; now injection He as <-.
  - destruct (Urllib.check_bracketed_host h2); [|discriminate].
    intros He; now injection He as <-.
Qed.

Lemma checknetloc_raises (n : string) (e : exn) :
  Urllib.checknetloc n = Raise e -> exn_kind e = ValueError.
Proof.
  unfold Urllib.checknetloc.
  destruct (_ || _); [discriminate|].
  destruct (_ =? _); [discriminate|].
  destruct (_ || _); [|discriminate].
  intros He; now injection He as <-.
Qed.

Lemma netloc_raises_value_error (url : string) (e : exn) :
  Urllib.netloc url = Raise e -> exn_kind e = ValueError.
Proof.
  unfold Urllib.netloc.
  destruct (prefix "//" _).
  - destruct (_ || _); [intros He; now injection He as <-|].
    destruct (_ && _).
    + destruct (Urllib.check_bracketed_netloc _) as [[]|e0] eqn:Hb.
      * simpl. destruct (Urllib.checknetloc _) as [[]|e1] eqn:Hc;
          [discriminate|].
        simpl. intros He; injection He as <-.
        now apply checknetloc_raises in Hc.
      * simpl. intros He; injection He as <-.
        now apply check_bracketed_netloc_raises in Hb.
    + simpl. destruct (Urllib.checknetloc _) as [[]|e1] eqn:Hc;
        [discriminate|].
      simpl. intros He; injection He as <-.
      now apply checknetloc_raises in Hc.
  - simpl. discriminate.
Qed.

Lemma normalize_domain_split (domain : string) :
  Bootstrapper.normalize_domain domain =
  if Py.contains "http" domain then Urllib.netloc domain
  else Ok (Py.rstrip "/" domain).
Proof.
  destruct (Py.contains "http" domain) eqn:Hc.
  - now apply normalize_domain_http.
  - rewrite (normalize_domain_plain _ Hc).
    assert (Hs : Py.contains "https://" domain = false).
    { destruct (Py.contains "https://" domain) eqn:Hs; [|reflexivity].
      rewrite (contains_weaken "http" "https://" domain eq_refl Hs) in Hc.
      discriminate. }
    rewrite (replace_no_occurrence _ _ _ Hs).
    assert (Hp : Py.contains "http://" domain = false).
    { destruct (Py.contains "http://" domain) eqn:Hp; [|reflexivity].
      rewrite (contains_weaken "http" "http://" domain eq_refl Hp) in Hc.
      discriminate. }
    now rewrite (replace_no_occurrence _ _ _ Hp).
Qed.

(** X1: the two [replace] calls of the clean-up never change anything: the
    normalised host is the parsed network location when the input
    contains [http], and the input without its trailing slashes
    otherwise. *)
Theorem normalize_domain_two_cases (domain : string) :
  Bootstrapper.normalize_domain domain =
  if Py.contains "http" domain then Urllib.netloc domain
  else Ok (Py.rstrip "/" domain).
Proof. exact (normalize_domain_split domain). Qed.

Lemma normalized_no_trailing_slash (domain host p : string) :
  Bootstrapper.normalize_domain domain = Ok host -> host <> p ++ "/".
Proof.
  rewrite normalize_domain_split.
  destruct (Py.contains "http" domain).
  - intros Hn ->. apply netloc_no_slash in Hn.
    now rewrite has_char_append in Hn.
  - intros Hn. injection Hn as <-. apply rstrip_no_trailing.
Qed.

(** X2: a normalised host never ends in a slash. *)
Theorem normalize_domain_no_trailing_slash (domain host p : string) :
  Bootstrapper.normalize_domain domain = Ok host -> host <> p ++ "/".
Proof. exact (normalized_no_trailing_slash domain host p). Qed.

(** X3: normalising twice is normalising once, for every host that does
    not itself contain [http]; an input without [http] always gives such a
    host. *)
Theorem normalize_domain_idempotent (domain host : string) :
  Bootstrapper.normalize_domain domain = Ok host ->
  Py.contains "http" host = false ->
  Bootstrapper.normalize_domain host = Ok host.
Proof.
  intros Hn Hh. rewrite (normalize_domain_split host), Hh. f_equal.
  apply rstrip_fixed. intros p.
  now apply (normalized_no_trailing_slash domain).
Qed.

Lemma normalize_domain_plain_host (domain host : string) :
  Py.contains "http" domain = false ->
  Bootstrapper.normalize_domain domain = Ok host ->
  Py.contains "http" host = false.
Proof.
  intros Hc. rewrite normalize_domain_split, Hc.
  intros Hn. injection Hn as <-.
  destruct (Py.contains "http" (Py.rstrip "/" domain)) eqn:Hr; [|reflexivity].
  apply contains_rstrip in Hr. congruence.
Qed.

Lemma normalize_domain_raise_cases (domain : string) (e : exn) :
  Bootstrapper.normalize_domain domain = Raise e ->
  Py.contains "http" domain = true
  /\ Urllib.netloc domain = Raise e
  /\ exn_kind e = ValueError.
Proof.
  rewrite normalize_domain_split.
  destruct (Py.contains "http" domain); [|discriminate].
  intros Hn. repeat split; [exact Hn|].
  now apply (netloc_raises_value_error domain).
Qed.

(** X4: the normalisation raises only for an input that contains [http],
    and then only the [ValueError] of the URL parser. *)
Theorem normalize_domain_raises (domain : string) (e : exn) :
  Bootstrapper.normalize_domain domain = Raise e ->
  Py.contains "http" domain = true
  /\ Urllib.netloc domain = Raise e
  /\ exn_kind e = ValueError.
Proof. exact (normalize_domain_raise_cases domain e). Qed.

End NormalizeMore.

Lemma normalize_domain_no_trailing_slash_witness :
  @Bootstrapper.normalize_domain Urllib.plain_oracle "login.salesforce.com//"
  = Ok "login.salesforce.com"
  /\ "login.salesforce.com" <> "login.salesforce.com" ++ "/".
Proof.
  split; [reflexivity|].
  apply (@normalize_domain_no_trailing_slash Urllib.plain_oracle
           "login.salesforce.com//" "login.salesforce.com"
           "login.salesforce.com" eq_refl).
Defined.

Lemma normalize_domain_idempotent_witness :
  @Bootstrapper.normalize_domain Urllib.plain_oracle
    "https://wmm.lightning.force.com/" = Ok "wmm.lightning.force.com"
  /\ @Bootstrapper.normalize_domain Urllib.plain_oracle
       "wmm.lightning.force.com" = Ok "wmm.lightning.force.com".
Proof.
  split; [reflexivity|].
  apply (@normalize_domain_idempotent Urllib.plain_oracle
           "https://wmm.lightning.force.com/" "wmm.lightning.force.com"
           eq_refl eq_refl).
Defined.

Lemma normalize_domain_raises_witness :
  @Bootstrapper.normalize_domain Urllib.plain_oracle "http://[::1"
  = Raise (Urllib.value_error "Invalid IPv6 URL")
  /\ Py.contains "http" "http://[::1" = true.
Proof.
  split; [reflexivity|].
  apply (@normalize_domain_raises Urllib.plain_oracle "http://[::1"
           (Urllib.value_error "Invalid IPv6 URL") eq_refl).
Defined.

(** ** More about the bootstrapper's runs *)

Section BootstrapperMore.
Context `{Urllib.Oracle}.
Variable creds : credentials.

(** The prefix of a failure message, by the class of the exception *)
Let failure_prefix (e : exn) : string :=
  match exn_kind e with
  | ImportError => "simple-salesforce not installed: "
  | _ => "Connection failed: "
  end.

Lemma handlers_spec (e : exn) :
  Bootstrapper.handlers e =
  Some (print_json (JObj [ ("success", JBool false);
                           ("message", JStr (failure_prefix e ++ exn_msg e)) ])).
Proof.
  unfold Bootstrapper.handlers, Bootstrapper.failure_result, failure_prefix.
  now destruct (exn_kind e).
Qed.

Lemma bootstrapper_success (domain host : string) (w : world)
    (sf : session) (recs : list record) :
  import_simple_salesforce w = Ok tt ->
  Bootstrapper.normalize_domain domain = Ok host ->
  Salesforce w creds (Bootstrapper.select_auth host) = Ok sf ->
  sf_query sf (Bootstrapper.user_query (username creds)) = Ok recs ->
  Bootstrapper.run creds domain w =
  {| stdout := [Print ("Using domain: " ++ host);
                PrintJson (Bootstrapper.success_result recs sf)];
     status := ExitNormally |}.
Proof.
  intros Hi Hn Hs Hq.
  unfold Bootstrapper.run, run_script, try_except, Bootstrapper.connect,
    bind, lift.
  rewrite Hi, Hn. cbn [print emit]. now rewrite Hs, Hq.
Qed.

(** X5: a domain the URL parser rejects is reported as a failed
    connection, without the "Using domain" line and without any call of
    the [Salesforce] constructor: the run is the same in every world in
    which the import succeeds. *)
Theorem bootstrapper_malformed_domain (domain : string) (w : world)
    (e : exn) :
  import_simple_salesforce w = Ok tt ->
  Bootstrapper.normalize_domain domain = Raise e ->
  Bootstrapper.run creds domain w =
  {| stdout := [PrintJson
                  (JObj [ ("success", JBool false);
                          ("message",
                           JStr ("Connection failed: " ++ exn_msg e)) ])];
     status := ExitNormally |}.
Proof.
  intros Hi Hn.
  destruct (normalize_domain_raise_cases domain e Hn) as (_ & _ & Hk).
  unfold Bootstrapper.run, run_script, try_except, Bootstrapper.connect,
    bind, lift.
  rewrite Hi, Hn, handlers_spec. unfold failure_prefix. now rewrite Hk.
Qed.

(** X6: once the import succeeded and the domain normalised, the first
    thing written is the plain line "Using domain: <host>" and the JSON
    document follows it, on success and on failure alike: standard output
    as a whole is then two items, not one JSON document. *)
Theorem bootstrapper_output_shape (domain host : string) (w : world) :
  import_simple_salesforce w = Ok tt ->
  Bootstrapper.normalize_domain domain = Ok host ->
  exists doc,
    stdout (Bootstrapper.run creds domain w)
    = [Print ("Using domain: " ++ host); PrintJson doc]
    /\ status (Bootstrapper.run creds domain w) = ExitNormally.
Proof.
  intros Hi Hn.
  unfold Bootstrapper.run, run_script, try_except, Bootstrapper.connect,
    bind, lift.
  rewrite Hi, Hn. cbn [print emit].
  destruct (Salesforce w creds (Bootstrapper.select_auth host))
    as [sf|e]; [|rewrite handlers_spec; eexists; split; reflexivity].
  destruct (sf_query sf (Bootstrapper.user_query (username creds)))
    as [recs|e]; [|rewrite handlers_spec]; eexists; split; reflexivity.
Qed.

(** X7: the document says [success: true] exactly when none of the four
    steps raised: the import, the normalisation, the login and the
    verification query. *)
Theorem bootstrapper_success_iff (domain : string) (w : world) :
  (exists doc,
      In (PrintJson doc) (stdout (Bootstrapper.run creds domain w))
      /\ json_field "success" doc = Some (JBool true))
  <->
  (exists host sf recs,
      import_simple_salesforce w = Ok tt
      /\ Bootstrapper.normalize_domain domain = Ok host
      /\ Salesforce w creds (Bootstrapper.select_auth host) = Ok sf
      /\ sf_query sf (Bootstrapper.user_query (username creds)) = Ok recs).
Proof.
  split.
  - intros (doc & Hin & Hs).
    destruct (bootstrapper_run_cases creds domain w)
      as [(host & sf & recs & Hi & Hn & Hl & Hq & _)
         |(msg & pre & Hrun & Hpre)].
    + now exists host, sf, recs.
    + exfalso. rewrite Hrun in Hin. cbn [stdout] in Hin.
      apply in_app_or in Hin as [Hin|[Hin|[]]].
      * clear -Hin Hpre. induction pre as [|[t|d] pre IH]; simpl in *.
        -- contradiction.
        -- destruct Hin as [Hin|Hin]; [discriminate|now apply IH].
        -- discriminate.
      * injection Hin as <-. discriminate.
  - intros (host & sf & recs & Hi & Hn & Hl & Hq).
    rewrite (bootstrapper_success domain host w sf recs Hi Hn Hl Hq).
    exists (Bootstrapper.success_result recs sf). split; [|reflexivity].
    simpl. auto.
Qed.

(** X8: when the login raises, the document carries the exception's text
    after "Connection failed: "; but an [ImportError] raised at that point
    is reported as "simple-salesforce not installed: ", although the
    import itself succeeded. *)
Theorem bootstrapper_login_failure (domain host : string) (w : world)
    (e : exn) :
  import_simple_salesforce w = Ok tt ->
  Bootstrapper.normalize_domain domain = Ok host ->
  Salesforce w creds (Bootstrapper.select_auth host) = Raise e ->
  Bootstrapper.run creds domain w =
  {| stdout :=
       [Print ("Using domain: " ++ host);
        PrintJson
          (JObj [ ("success", JBool false);
                  ("message",
                   JStr ((match exn_kind e with
                          | ImportError => "simple-salesforce not installed: "
                          | _ => "Connection failed: "
                          end) ++ exn_msg e)) ])];
     status := ExitNormally |}.
Proof.
  intros Hi Hn Hl.
  unfold Bootstrapper.run, run_script, try_except, Bootstrapper.connect,
    bind, lift.
  rewrite Hi, Hn. cbn [print emit]. rewrite Hl, handlers_spec. reflexivity.
Qed.

End BootstrapperMore.

Lemma bootstrapper_malformed_domain_witness :
  stdout (@Bootstrapper.run Urllib.plain_oracle Sample.creds "http://[::1"
            Sample.online)
  = [PrintJson
       (JObj [ ("success", JBool false);
               ("message", JStr "Connection failed: Invalid IPv6 URL") ])].
Proof.
  rewrite (@bootstrapper_malformed_domain Urllib.plain_oracle Sample.creds
             "http://[::1" Sample.online
             (Urllib.value_error "Invalid IPv6 URL") eq_refl eq_refl).
  reflexivity.
Defined.

Lemma bootstrapper_output_shape_witness :
  exists doc,
    stdout (@Bootstrapper.run Urllib.plain_oracle Sample.creds "login"
              Sample.login_refused)
    = [Print "Using domain: login"; PrintJson doc].
Proof.
  destruct (@bootstrapper_output_shape Urllib.plain_oracle Sample.creds
              "login" "login" Sample.login_refused eq_refl eq_refl)
    as (doc & Hd & _).
  now exists doc.
Defined.

Lemma bootstrapper_login_failure_witness :
  json_docs (stdout (@Bootstrapper.run Urllib.plain_oracle Sample.creds
                       "login" Sample.login_refused))
  = [JObj [ ("success", JBool false);
            ("message",
             JStr "Connection failed: INVALID_LOGIN: Invalid username or password") ]].
Proof.
  rewrite (@bootstrapper_login_failure Urllib.plain_oracle Sample.creds
             "login" "login" Sample.login_refused
             (Exn LibraryError "INVALID_LOGIN: Invalid username or password")
             eq_refl eq_refl eq_refl).
  reflexivity.
Defined.

(** ** More about the explorer *)

Section FilledMore.



End FilledMore.

Section AnswerRecords.
Variable db : Soql.org.

Lemma lookup_project (fields : list string) (g : string) (r : record) :
  In g fields ->
  Dict.lookup g (Soql.project fields r) = Some (Soql.field g r).
Proof.
  unfold Soql.project.
  induction fields as [|h fields IH]; simpl; [tauto|].
  intros Hin. destruct (h =? g) eqn:Hhg.
  - apply String.eqb_eq in Hhg. now subst.
  - apply String.eqb_neq in Hhg. destruct Hin as [->|Hin]; [congruence|].
    now apply IH.
Qed.

(** X11: every record of the shift query's answer carries the total and
    the still-needed field, null when the row has no value: the defaults 1
    and 0 of the two [get] calls never apply to such a record.  A null
    total therefore gives [filled] = 0, and a non-zero total with a null
    still-needed count makes [filled] raise. *)
Theorem answer_record_defaults_unused (job_id : string) (r : record) :
  In r (Soql.eval db (Explorer.shifts_query job_id)) ->
  Explorer.total_spots r = Soql.field Explorer.TOTAL r
  /\ Explorer.still_needed r = Soql.field Explorer.STILL_NEEDED r
  /\ (Soql.field Explorer.TOTAL r = VNone -> Explorer.filled r = Ok (VInt 0))
  /\ (forall t, Soql.field Explorer.TOTAL r = VInt t -> t <> 0%Z ->
                Soql.field Explorer.STILL_NEEDED r = VNone ->
                exists e, Explorer.filled r = Raise e
                          /\ exn_kind e = TypeError).
Proof.
  intros Hin. unfold Soql.eval in Hin.
  apply in_map_iff in Hin as (row & <- & _).
  set (r := Soql.project _ row).
  assert (Ht : Explorer.total_spots r = Soql.field Explorer.TOTAL r).
  { unfold Explorer.total_spots, Soql.field, Dict.get, r.
    rewrite lookup_project; [reflexivity|simpl; tauto]. }
  assert (Hs : Explorer.still_needed r = Soql.field Explorer.STILL_NEEDED r).
  { unfold Explorer.still_needed, Soql.field, Dict.get, r.
    rewrite lookup_project; [reflexivity|simpl; tauto]. }
  repeat split; try assumption.
  - intros Hnull. apply filled_falsy_total. now rewrite Ht, Hnull.
  - intros t Htv Hnz Hsv. unfold Explorer.filled.
    rewrite Ht, Hs, Htv, Hsv. simpl.
    apply Z.eqb_neq in Hnz. rewrite Hnz. simpl.
    eexists. split; reflexivity.
Qed.

End AnswerRecords.

Section FieldListing.
Variable names : list string.

Lemma print_field_described (f : record) (o : list out) :
  Listing.described names f = true ->
  Explorer.print_field names f o
  = ((if Listing.listed names f
      then o ++ [Print (Listing.field_line f)]
      else o)%list, Ok tt).
Proof.
  unfold Listing.described, Listing.has, Listing.listed, Listing.field_line,
    Explorer.print_field, bind, lift, Dict.getitem, Dict.get.
  destruct (Dict.lookup "name" f) as [n|]; [|discriminate].
  simpl. destruct (existsb _ names); simpl; [|reflexivity].
  destruct (Dict.lookup "label" f) as [l|]; [|discriminate].
  destruct (Dict.lookup "type" f) as [t|]; [|discriminate].
  reflexivity.
Qed.

Lemma print_fields_run (fields : list record) (o : list out) :
  forallb (Listing.described names) fields = true ->
  for_each fields (Explorer.print_field names) o
  = ((o ++ map (fun f => Print (Listing.field_line f))
            (filter (Listing.listed names) fields))%list, Ok tt).
Proof.
  revert o; induction fields as [|f fields IH]; intros o Hd.
  - simpl. unfold ret. now rewrite app_nil_r.
  - cbn [forallb] in Hd. apply andb_true_iff in Hd as [Hf Hd].
    cbn [for_each]. unfold bind at 1.
    rewrite (print_field_described f o Hf), (IH _ Hd).
    cbn [filter]. destruct (Listing.listed names f); [|reflexivity].
    cbn [map]. now rewrite <- app_assoc.
Qed.

(** X12: over descriptors that have what the listing reads, the loop
    prints one line for each descriptor whose name is on the allow-list,
    in the order of the descriptors, and nothing for the others. *)
Theorem print_fields_listing (fields : list record) (o : list out) :
  forallb (Listing.described names) fields = true ->
  for_each fields (Explorer.print_field names) o
  = ((o ++ map (fun f => Print (Listing.field_line f))
            (filter (Listing.listed names) fields))%list, Ok tt).
Proof. exact (print_fields_run fields o). Qed.

(** X13: a descriptor without a name stops the listing with
    [KeyError('name')]: the lines of the descriptors before it are
    printed, and no descriptor after it is looked at. *)
Theorem print_fields_abort (before after : list record) (bad : record)
    (o : list out) :
  forallb (Listing.described names) before = true ->
  Dict.lookup "name" bad = None ->
  for_each (before ++ bad :: after) (Explorer.print_field names) o
  = ((o ++ map (fun f => Print (Listing.field_line f))
            (filter (Listing.listed names) before))%list,
     Raise (Exn KeyError "'name'")).
Proof.
  intros Hd Hbad. revert o Hd.
  induction before as [|f before IH]; intros o Hd.
  - cbn [app for_each filter map]. rewrite app_nil_r.
    unfold bind at 1, Explorer.print_field, bind, lift, Dict.getitem.
    now rewrite Hbad.
  - cbn [forallb] in Hd. apply andb_true_iff in Hd as [Hf Hd].
    cbn [app for_each]. unfold bind at 1.
    rewrite (print_field_described f o Hf), (IH _ Hd).
    cbn [filter]. destruct (Listing.listed names f); [|reflexivity].
    cbn [map]. now rewrite <- app_assoc.
Qed.

End FieldListing.


Section JobBlock.
Variable db : Soql.org.
Variable meta : string -> list record.
Variable instance : string.





End JobBlock.

Section ExplorerAbort.

(** X17: when the body of the explorer raises, whatever it printed before
    stays on standard output, one line "... Error: <message>" follows, and
    the script still exits normally. *)
Theorem explorer_abort (creds : credentials) (domain : string) (w : world)
    (o : list out) (e : exn) :
  import_simple_salesforce w = Ok tt ->
  Explorer.explore creds domain w [] = (o, Raise e) ->
  Explorer.run creds domain w =
  {| stdout := (o ++ [Print ("❌ Error: " ++ exn_msg e)])%list;
     status := ExitNormally |}.
Proof.
  intros Hi He. unfold Explorer.run, run_script, bind, lift, try_except.
  rewrite Hi, He. reflexivity.
Qed.

End ExplorerAbort.

(** ** Closed instances of the further properties *)

Lemma answer_record_defaults_unused_witness :
  Explorer.filled
    (nth 0 (Soql.eval Sample.db (Explorer.shifts_query "a0J5e000001AbCdEAK"))
       [])
  = Ok (VInt 0).
Proof.
  assert (Hin : In (nth 0 (Soql.eval Sample.db
                              (Explorer.shifts_query "a0J5e000001AbCdEAK")) [])
                  (Soql.eval Sample.db
                     (Explorer.shifts_query "a0J5e000001AbCdEAK")))
    by (left; reflexivity).
  destruct (answer_record_defaults_unused Sample.db "a0J5e000001AbCdEAK" _ Hin)
    as (_ & _ & Hnull & _).
  apply Hnull. reflexivity.
Defined.

Lemma print_fields_listing_witness :
  for_each (Sample.meta "GW_Volunteers__Volunteer_Job__c")
    (Explorer.print_field Explorer.job_field_names) []
  = ([Print "Id: Record ID (id)"; Print "Name: Volunteer Job Name (string)"],
     Ok tt).
Proof.
  rewrite (print_fields_listing Explorer.job_field_names
             (Sample.meta "GW_Volunteers__Volunteer_Job__c") [] eq_refl).
  reflexivity.
Defined.

Lemma print_fields_abort_witness :
  for_each
    ([Sample.field_desc "Id" "Record ID" "id"]
     ++ [("label", VStr "No name")]
        :: [Sample.field_desc "Name" "Volunteer Job Name" "string"])
    (Explorer.print_field Explorer.job_field_names) []
  = ([Print "Id: Record ID (id)"], Raise (Exn KeyError "'name'")).
Proof.
  exact (print_fields_abort Explorer.job_field_names
           [Sample.field_desc "Id" "Record ID" "id"]
           [Sample.field_desc "Name" "Volunteer Job Name" "string"]
           [("label", VStr "No name")] [] eq_refl eq_refl).
Defined.


Lemma shifts_query_text_words_witness :
  Soql.words (Explorer.shifts_query_text "a0J5e000001AbCdEAK")
  = Soql.render (Explorer.shifts_query "a0J5e000001AbCdEAK").
Proof. apply shifts_query_text_words. reflexivity. Defined.

Lemma user_query_text_words_witness :
  Soql.words (Bootstrapper.user_query_text "volunteer.admin@example.org")
  = Soql.render (Bootstrapper.user_query "volunteer.admin@example.org").
Proof. apply user_query_text_words. reflexivity. Defined.

Lemma explorer_abort_witness :
  Explorer.run Sample.creds Explorer.domain Sample.login_refused
  = {| stdout :=
         [Print "❌ Error: INVALID_LOGIN: Invalid username or password"];
       status := ExitNormally |}.
Proof.
  rewrite (explorer_abort Sample.creds Explorer.domain Sample.login_refused
             [] (Exn LibraryError "INVALID_LOGIN: Invalid username or password")
             eq_refl eq_refl).
  reflexivity.
Defined.

(** ** A complete run of the explorer *)

Section ExplorerCompletes.
Variable db : Soql.org.
Variable meta : string -> list record.
Variable instance : string.



End ExplorerCompletes.


(** ** The instance URL the bootstrapper passes *)

Section InstanceUrl.
Context `{Urllib.Oracle}.

Lemma append_trailing (a h p : string) (c : ascii) :
  h <> "" -> a ++ h = p ++ String c "" -> exists q, h = q ++ String c "".
Proof.
  intros Hh. revert p; induction a as [|x a IH]; intros p He.
  - now exists p.
  - destruct p as [|y p]; simpl in He; inversion He; subst.
    + destruct a; [now destruct h|discriminate].
    + now apply (IH p).
Qed.

(** X19: when the bootstrapper takes the instance-URL branch, the URL it
    passes is [https://] followed by the normalised host, the host
    contains [lightning.force.com], and the URL never ends in a slash. *)
Theorem bootstrapper_instance_url (domain url : string) :
  Bootstrapper.auth_for domain = Ok (InstanceUrl url) ->
  exists host,
    Bootstrapper.normalize_domain domain = Ok host
    /\ url = "https://" ++ host
    /\ Py.contains "lightning.force.com" host = true
    /\ forall p, url <> p ++ "/".
Proof.
  unfold Bootstrapper.auth_for, Bootstrapper.select_auth.
  destruct (Bootstrapper.normalize_domain domain) as [host|e] eqn:Hn;
    [|discriminate].
  simpl. destruct (Py.contains "lightning.force.com" host) eqn:Hc;
    [|discriminate].
  intros Hu. injection Hu as <-. exists host. repeat split; try assumption.
  intros p Hp.
  assert (Hh : host <> "") by (intros ->; discriminate).
  destruct (append_trailing "https://" host p "/" Hh Hp) as [q Hq].
  now apply (normalized_no_trailing_slash domain host q).
Qed.

End InstanceUrl.

Lemma bootstrapper_instance_url_witness :
  exists host,
    @Bootstrapper.normalize_domain Urllib.plain_oracle Bootstrapper.domain
    = Ok host
    /\ "https://wmm.lightning.force.com" = "https://" ++ host.
Proof.
  destruct (@bootstrapper_instance_url Urllib.plain_oracle
              Bootstrapper.domain "https://wmm.lightning.force.com" eq_refl)
    as (host & Hn & Hu & _).
  now exists host.
Defined.

(** * The derived value, floats included *)

Section FilledNumbers.

Lemma lookup_of_record (key : string) (r : record) :
  Dict.lookup key (PyNum.of_record r)
  = option_map PyNum.of_value (Dict.lookup key r).
Proof.
  induction r as [|[k v] r IH]; [reflexivity|].
  simpl. now destruct (k =? key).
Qed.

Lemma truthy_of_value (v : value) :
  PyNum.truthy (PyNum.of_value v) = truthy v.
Proof. now destruct v. Qed.

Lemma py_sub_of_value (a b : value) :
  PyNum.py_sub (PyNum.of_value a) (PyNum.of_value b)
  = PyNum.of_result (py_sub a b).
Proof. destruct a as [|[]|x|s], b as [|[]|y|t]; reflexivity. Qed.

(** On a record without floats the two computations of [filled] agree. *)
Lemma filled_of_record (r : record) :
  PyNum.filled (PyNum.of_record r) = PyNum.of_result (Explorer.filled r).
Proof.
  unfold PyNum.filled, Explorer.filled, PyNum.total_spots,
    PyNum.still_needed, Explorer.total_spots, Explorer.still_needed,
    PyNum.get, Dict.get.
  rewrite !lookup_of_record.
  destruct (Dict.lookup "GW_Volunteers__Total_Volunteers__c" r) as [t|];
    destruct (Dict.lookup
                "GW_Volunteers__Number_of_Volunteers_Still_Needed__c" r)
      as [n|];
    cbn [option_map]; rewrite ?truthy_of_value.
  - destruct (truthy t); [apply py_sub_of_value|reflexivity].
  - destruct (truthy t); [apply (py_sub_of_value t (VInt 0))|reflexivity].
  - apply (py_sub_of_value (VInt 1) n).
  - reflexivity.
Qed.

Lemma pynum_filled_falsy (shift : PyNum.pyrecord) :
  PyNum.truthy (PyNum.total_spots shift) = false ->
  PyNum.filled shift = Ok (PyNum.PInt 0).
Proof. intros Ht. unfold PyNum.filled. now rewrite Ht. Qed.


End FilledNumbers.

Section FilledClaims.
Import PrimFloat.


(** C6 (amended): the explorer takes the total capacity, 1 when the key is
    absent, and the still-needed count, 0 when the key is absent.  A falsy
    total capacity (0, 0.0 or null) forces [filled] to 0.  With a truthy
    total capacity and two numbers, [filled] is their difference: an
    integer for two integers, a float as soon as one of them is a float;
    10 and 3 give 7.  With a truthy total capacity and a value that is not
    a number, a null still-needed count for one, the subtraction raises
    [TypeError] and no [filled] is computed. *)
Theorem C6_filled_cases (shift : PyNum.pyrecord) :
  (Dict.lookup Explorer.TOTAL shift = None ->
   PyNum.total_spots shift = PyNum.PInt 1)
  /\ (Dict.lookup Explorer.STILL_NEEDED shift = None ->
      PyNum.still_needed shift = PyNum.PInt 0)
  /\ (PyNum.truthy (PyNum.total_spots shift) = false ->
      PyNum.filled shift = Ok (PyNum.PInt 0))
  /\ (forall t s : Z,
        PyNum.total_spots shift = PyNum.PInt t -> t <> 0%Z ->
        PyNum.still_needed shift = PyNum.PInt s ->
        PyNum.filled shift = Ok (PyNum.PInt (t - s)))
  /\ (forall t s : float,
        PyNum.total_spots shift = PyNum.PFloat t ->
        PrimFloat.eqb t 0%float = false ->
        PyNum.still_needed shift = PyNum.PFloat s ->
        PyNum.filled shift = Ok (PyNum.PFloat (PrimFloat.sub t s)))
  /\ (forall (t : Z) (s ft : float),
        PyNum.total_spots shift = PyNum.PInt t -> t <> 0%Z ->
        PyNum.still_needed shift = PyNum.PFloat s ->
        PyNum.float_of_Z t = Ok ft ->
        PyNum.filled shift = Ok (PyNum.PFloat (PrimFloat.sub ft s)))
  /\ (forall (t : float) (s : Z) (fs : float),
        PyNum.total_spots shift = PyNum.PFloat t ->
        PrimFloat.eqb t 0%float = false ->
        PyNum.still_needed shift = PyNum.PInt s ->
        PyNum.float_of_Z s = Ok fs ->
        PyNum.filled shift = Ok (PyNum.PFloat (PrimFloat.sub t fs)))
  /\ (PyNum.truthy (PyNum.total_spots shift) = true ->
      PyNum.as_number (PyNum.total_spots shift) = None
      \/ PyNum.as_number (PyNum.still_needed shift) = None ->
      exists e, PyNum.filled shift = Raise e /\ exn_kind e = TypeError)
  /\ (forall r : record,
        PyNum.filled (PyNum.of_record r)
        = PyNum.of_result (Explorer.filled r))
  /\ PyNum.filled [ (Explorer.TOTAL, PyNum.PInt 10);
                    (Explorer.STILL_NEEDED, PyNum.PInt 3) ]
     = Ok (PyNum.PInt 7)
  /\ PyNum.filled [ (Explorer.TOTAL, PyNum.PFloat 10%float);
                    (Explorer.STILL_NEEDED, PyNum.PFloat 3%float) ]
     = Ok (PyNum.PFloat 7%float)
  /\ Explorer.filled [ (Explorer.TOTAL, VInt 10);
                       (Explorer.STILL_NEEDED, VInt 3) ]
     = Ok (VInt 7).
Proof.
  repeat match goal with |- _ /\ _ => split end.
  - intros Hn. unfold PyNum.total_spots, PyNum.get.
    change "GW_Volunteers__Total_Volunteers__c" with Explorer.TOTAL.
    now rewrite Hn.
  - intros Hn. unfold PyNum.still_needed, PyNum.get.
    change "GW_Volunteers__Number_of_Volunteers_Still_Needed__c"
      with Explorer.STILL_NEEDED.
    now rewrite Hn.
  - apply pynum_filled_falsy.
  - intros t s Ht Hnz Hs. unfold PyNum.filled. rewrite Ht, Hs. simpl.
    apply Z.eqb_neq in Hnz. now rewrite Hnz.
  - intros t s Ht Hnz Hs. unfold PyNum.filled. rewrite Ht, Hs. simpl.
    change PrimFloat.zero with 0%float. now rewrite Hnz.
  - intros t s ft Ht Hnz Hs Hft. unfold PyNum.filled. rewrite Ht, Hs.
    cbn [PyNum.truthy]. apply Z.eqb_neq in Hnz. rewrite Hnz.
    cbn [negb PyNum.py_sub PyNum.as_number PyNum.to_float].
    now rewrite Hft.
  - intros t s fs Ht Hnz Hs Hfs. unfold PyNum.filled. rewrite Ht, Hs.
    cbn [PyNum.truthy]. change PrimFloat.zero with 0%float. rewrite Hnz.
    cbn [negb PyNum.py_sub PyNum.as_number PyNum.to_float rbind].
    now rewrite Hfs.
  - intros Ht Hn. unfold PyNum.filled, PyNum.py_sub. rewrite Ht.
    destruct Hn as [Hn|Hn]; rewrite Hn.
    + eexists. split; reflexivity.
    + destruct (PyNum.as_number (PyNum.total_spots shift)) as [[x|x]|];
        eexists; split; reflexivity.
  - apply filled_of_record.
  - reflexivity.
  - reflexivity.
  - reflexivity.
Qed.

End FilledClaims.


Lemma C6_witness :
  PyNum.filled [ (Explorer.TOTAL, PyNum.PInt 4) ] = Ok (PyNum.PInt 4).
Proof.
  destruct (C6_filled_cases [ (Explorer.TOTAL, PyNum.PInt 4) ])
    as (_ & _ & _ & Hint & _).
  apply (Hint 4%Z 0%Z eq_refl); [discriminate|reflexivity].
Defined.

(** C6, as first stated, fails on a record the service can return: with a
    total capacity of 5 and a null still-needed count the subtraction
    raises, no [filled] is computed, and the listing stops with the error
    line. *)
Lemma C6_counterexample :
  map (fun r => (Soql.field Explorer.TOTAL r,
                 Soql.field Explorer.STILL_NEEDED r))
    (Soql.eval SampleNull.db (Explorer.shifts_query "a0J5e000001AbCdEAK"))
  = [(VInt 5, VNone)]
  /\ map Explorer.filled
       (Soql.eval SampleNull.db (Explorer.shifts_query "a0J5e000001AbCdEAK"))
     = [Raise (Exn TypeError
                 "unsupported operand type(s) for -: 'int' and 'NoneType'")]
  /\ map (fun r => PyNum.filled (PyNum.of_record r))
       (Soql.eval SampleNull.db (Explorer.shifts_query "a0J5e000001AbCdEAK"))
     = [Raise (Exn TypeError
                 "unsupported operand type(s) for -: 'int' and 'NoneType'")]
  /\ skipn 16 (stdout (Explorer.main Sample.creds SampleNull.online))
     = [ Print "  Recent Shifts: 1";
         Print "❌ Error: unsupported operand type(s) for -: 'int' and 'NoneType'" ].
Proof. repeat split. Qed.

(** * The bootstrapper's JSON document *)

Section JsonDocument.
Context `{Urllib.Oracle}.
Variable creds : credentials.

(** C8 (amended): every run of the bootstrapper writes exactly one JSON
    document and exits normally.  When the import, the normalisation, the
    login and the verification query all succeed, the document has the
    four fields [success] (true), [message] (a string), [userInfo] (the
    first record the verification query returned, or null when it
    returned none) and [organizationId] (the instance of the session the
    login returned, a string).  When one of the four steps raises, the
    document has the two fields [success] (false) and [message] (the text
    of that exception after a prefix chosen by its class) and neither
    [userInfo] nor [organizationId]. *)
Theorem C8_json_document (domain : string) (w : world) :
  exists doc,
    json_docs (stdout (Bootstrapper.run creds domain w)) = [doc]
    /\ status (Bootstrapper.run creds domain w) = ExitNormally
    /\ ((exists host sf recs,
            import_simple_salesforce w = Ok tt
            /\ Bootstrapper.normalize_domain domain = Ok host
            /\ Salesforce w creds (Bootstrapper.select_auth host) = Ok sf
            /\ sf_query sf (Bootstrapper.user_query (username creds))
               = Ok recs
            /\ doc = JObj [ ("success", JBool true);
                            ("message",
                             JStr "Successfully connected to Salesforce");
                            ("userInfo",
                             match recs with
                             | r :: _ => json_of_record r
                             | [] => JNull
                             end);
                            ("organizationId", JStr (sf_instance sf)) ])
        \/ (exists e,
              (import_simple_salesforce w = Raise e
               \/ (import_simple_salesforce w = Ok tt
                   /\ Bootstrapper.normalize_domain domain = Raise e)
               \/ (exists host,
                     import_simple_salesforce w = Ok tt
                     /\ Bootstrapper.normalize_domain domain = Ok host
                     /\ Salesforce w creds (Bootstrapper.select_auth host)
                        = Raise e)
               \/ (exists host sf,
                     import_simple_salesforce w = Ok tt
                     /\ Bootstrapper.normalize_domain domain = Ok host
                     /\ Salesforce w creds (Bootstrapper.select_auth host)
                        = Ok sf
                     /\ sf_query sf
                          (Bootstrapper.user_query (username creds))
                        = Raise e))
              /\ doc = JObj [ ("success", JBool false);
                              ("message",
                               JStr ((match exn_kind e with
                                      | ImportError =>
                                          "simple-salesforce not installed: "
                                      | _ => "Connection failed: "
                                      end) ++ exn_msg e)) ]
              /\ json_keys doc = ["success"; "message"]
              /\ json_field "userInfo" doc = None
              /\ json_field "organizationId" doc = None)).
Proof.
  assert (Hh : forall e,
             Bootstrapper.handlers e
             = Some (print_json
                       (JObj [ ("success", JBool false);
                               ("message",
                                JStr ((match exn_kind e with
                                       | ImportError =>
                                           "simple-salesforce not installed: "
                                       | _ => "Connection failed: "
                                       end) ++ exn_msg e)) ]))).
  { intros e. unfold Bootstrapper.handlers, Bootstrapper.failure_result.
    now destruct (exn_kind e). }
  unfold Bootstrapper.run, run_script, try_except, Bootstrapper.connect,
    bind, lift.
  destruct (import_simple_salesforce w) as [[]|e] eqn:Hi.
  2:{ rewrite Hh. eexists. split; [reflexivity|split; [reflexivity|]].
      right. exists e. repeat split. now left. }
  destruct (Bootstrapper.normalize_domain domain) as [host|e] eqn:Hn.
  2:{ rewrite Hh. eexists. split; [reflexivity|split; [reflexivity|]].
      right. exists e. repeat split. right. left. now split. }
  cbn [print emit].
  destruct (Salesforce w creds (Bootstrapper.select_auth host))
    as [sf|e] eqn:Hs.
  2:{ rewrite Hh. eexists. split; [reflexivity|split; [reflexivity|]].
      right. exists e. repeat split. right. right. left. now exists host. }
  destruct (sf_query sf (Bootstrapper.user_query (username creds)))
    as [recs|e] eqn:Hq.
  2:{ rewrite Hh. eexists. split; [reflexivity|split; [reflexivity|]].
      right. exists e. repeat split. right. right. right.
      now exists host, sf. }
  eexists. split; [reflexivity|split; [reflexivity|]].
  left. exists host, sf, recs. repeat split; assumption.
Qed.

End JsonDocument.
